(** * target-bigquery: schema translation, record coercion and batch delivery

    A shallow embedding of [target_bigquery/sinks.py].  Python values are
    an inductive type, exceptions are an error result, the sink's mutable
    attributes are threaded as explicit state, and the BigQuery client is
    a small state record that logs the calls made against it. *)

From Stdlib Require Import String Ascii List Bool Arith ZArith Lia.
From Stdlib Require Import DecimalString.
Import ListNotations.
Local Open Scope string_scope.
Local Open Scope list_scope.
Set Warnings "-register-all".

(** ** Python values *)

(** The values a decoded JSON document is made of.  A [str] is a sequence
    of characters, one [ascii] per character (code points below 256); a
    [dict] keeps its items in insertion order, as Python's does. *)
Inductive pyval : Type :=
| PNone
| PBool (b : bool)
| PInt (z : Z)
| PStr (s : string)
| PList (l : list pyval)
| PDict (d : list (string * pyval)).

Definition dict := list (string * pyval).

(** The exceptions the modelled code can meet. *)
Inductive exn : Type := KeyError | TypeError | AttributeError.

Inductive result (A : Type) : Type :=
| Ok (a : A)
| Raise (e : exn).
Arguments Ok {A} a.
Arguments Raise {A} e.

Definition rbind {A B} (r : result A) (k : A -> result B) : result B :=
  match r with
  | Ok a => k a
  | Raise e => Raise e
  end.

Declare Scope py_scope.
Delimit Scope py_scope with py.
Notation "x <- r ;; k" := (rbind r (fun x => k))
  (at level 61, r at next level, right associativity) : py_scope.

(** *** Dictionaries *)

(** [d.get(k)] as an option: the value stored under [k]. *)
Fixpoint dict_get (k : string) (d : dict) : option pyval :=
  match d with
  | [] => None
  | (k', v) :: tl => if String.eqb k' k then Some v else dict_get k tl
  end.

(** [d.get(k, default)]. *)
Definition dict_get_default (k : string) (d : dict) (default : pyval) : pyval :=
  match dict_get k d with
  | Some v => v
  | None => default
  end.

(** [k in d]. *)
Definition dict_mem (k : string) (d : dict) : bool :=
  match dict_get k d with
  | Some _ => true
  | None => false
  end.

(** [d[k] = v]: an existing key keeps its place, a new key goes last. *)
Fixpoint dict_set (k : string) (v : pyval) (d : dict) : dict :=
  match d with
  | [] => [(k, v)]
  | (k', v') :: tl =>
      if String.eqb k' k then (k', v) :: tl else (k', v') :: dict_set k v tl
  end.

(** The same lookup in continuation style: [present] receives the value
    stored under [k], which is a structural part of [d], so a function
    that recurses on a schema can recurse on what it finds. *)
Section WithKey.
Context {A : Type} (k : string) (present : pyval -> A) (absent : A).

Fixpoint with_key (d : dict) : A :=
  match d with
  | [] => absent
  | (k', v) :: tl => if String.eqb k' k then present v else with_key tl
  end.
End WithKey.

(** [v[k]] for a string key [k]: only a dict can be indexed by a string. *)
Definition getitem (v : pyval) (k : string) : result pyval :=
  match v with
  | PDict d =>
      match dict_get k d with
      | Some x => Ok x
      | None => Raise KeyError
      end
  | _ => Raise TypeError
  end.

(** [v.get(k, default)]: only a dict has the method. *)
Definition py_get (v : pyval) (k : string) (default : pyval) : result pyval :=
  match v with
  | PDict d => Ok (dict_get_default k d default)
  | _ => Raise AttributeError
  end.

(** *** Operators *)

(** [s in t] for two strings: [s] occurs in [t] as a substring. *)
Fixpoint is_substring (s t : string) : bool :=
  if String.prefix s t then true
  else match t with
       | EmptyString => false
       | String _ t' => is_substring s t'
       end.

(** [v == s] for a string literal [s]. *)
Definition py_eq_str (v : pyval) (s : string) : bool :=
  match v with
  | PStr t => String.eqb t s
  | _ => false
  end.

(** [s in v] for a string literal [s]: substring of a str, element of a
    list, key of a dict; anything else is not a container. *)
Definition py_in (s : string) (v : pyval) : result bool :=
  match v with
  | PStr t => Ok (is_substring s t)
  | PList l => Ok (existsb (fun x => py_eq_str x s) l)
  | PDict d => Ok (dict_mem s d)
  | _ => Raise TypeError
  end.

(** Truth value of an object, as [if v:] tests it. *)
Definition truthy (v : pyval) : bool :=
  match v with
  | PNone => false
  | PBool b => b
  | PInt z => negb (Z.eqb z 0)
  | PStr s => negb (String.eqb s EmptyString)
  | PList l => match l with [] => false | _ => true end
  | PDict d => match d with [] => false | _ => true end
  end.

(** ** [bigquery_type] *)

(** Each [in] test can raise when [property_type] is not a container, and
    the [and] of the fifth test is short-circuited. *)
Definition bigquery_type (property_type property_format : pyval) : result string :=
  (if py_eq_str property_format "date-time" then Ok "timestamp"
   else if py_eq_str property_format "date" then Ok "date"
   else if py_eq_str property_format "time" then Ok "time"
   else
     has_number <- py_in "number" property_type ;;
     if has_number then Ok "numeric"
     else
       has_integer <- py_in "integer" property_type ;;
       has_both <- (if has_integer then py_in "string" property_type else Ok false) ;;
       if has_both then Ok "string"
       else
         has_integer' <- py_in "integer" property_type ;;
         if has_integer' then Ok "integer"
         else
           has_boolean <- py_in "boolean" property_type ;;
           if has_boolean then Ok "boolean"
           else
             has_object <- py_in "object" property_type ;;
             if has_object then Ok "record" else Ok "string")%py.

(** ** [safe_column_name] *)

Definition ascii_in_range (lo hi : nat) (c : ascii) : bool :=
  Nat.leb lo (nat_of_ascii c) && Nat.leb (nat_of_ascii c) hi.

(** The character class [[a-zA-Z0-9_]]. *)
Definition is_word_char (c : ascii) : bool :=
  ascii_in_range 97 122 c || ascii_in_range 65 90 c
  || ascii_in_range 48 57 c || Ascii.eqb c "_"%char.

(** [c.lower()] for one character: the capital letters of ASCII and of
    Latin-1 (all of 0xC0-0xDE but the multiplication sign) move up by 32. *)
Definition char_lower (c : ascii) : ascii :=
  if ascii_in_range 65 90 c
     || (ascii_in_range 192 222 c && negb (Nat.eqb (nat_of_ascii c) 215))
  then ascii_of_nat (nat_of_ascii c + 32)
  else c.

Fixpoint str_map (f : ascii -> ascii) (s : string) : string :=
  match s with
  | EmptyString => EmptyString
  | String c s' => String (f c) (str_map f s')
  end.

Fixpoint str_filter (f : ascii -> bool) (s : string) : string :=
  match s with
  | EmptyString => EmptyString
  | String c s' => if f c then String c (str_filter f s') else str_filter f s'
  end.

Definition str_lower (s : string) : string := str_map char_lower s.

(** [name.replace] of the backtick by the empty string. *)
Definition remove_backticks (s : string) : string :=
  str_filter (fun c => negb (Ascii.eqb c "`"%char)) s.

(** [re.sub("[^a-zA-Z0-9_]", "_", name)]. *)
Definition sub_non_word (s : string) : string :=
  str_map (fun c => if is_word_char c then c else "_"%char) s.

Definition safe_column_name (name : string) (quotes : bool) : string :=
  let name := remove_backticks name in
  let name := sub_non_word name in
  if quotes then str_lower ("`" ++ name ++ "`")%string
  else str_lower name.

(** ** Column definitions *)

(** [bigquery.SchemaField(name, field_type, mode, fields=...)], with the
    attributes the sink sets. *)
Inductive SchemaField : Type :=
  mkSchemaField {
    sf_name : string;
    sf_type : string;
    sf_mode : string;
    sf_fields : list SchemaField
  }.

(** ** Schema translation *)

(** The translation methods read and write [self._contains_coerced_field]
    and can raise: a computation takes the flag and gives a value with the
    new flag, or an exception. *)
Definition M (A : Type) : Type := bool -> result (A * bool).

Definition ret {A} (a : A) : M A := fun flag => Ok (a, flag).

Definition bind {A B} (m : M A) (k : A -> M B) : M B :=
  fun flag =>
    match m flag with
    | Ok (a, flag') => k a flag'
    | Raise e => Raise e
    end.

Definition raise {A} (e : exn) : M A := fun _ => Raise e.

Definition lift {A} (r : result A) : M A :=
  fun flag => match r with Ok a => Ok (a, flag) | Raise e => Raise e end.

(** [self._contains_coerced_field = True]. *)
Definition set_coerced : M unit := fun _ => Ok (tt, true).

Declare Scope m_scope.
Delimit Scope m_scope with m.
Notation "x <-- m ;; k" := (bind m (fun x => k))
  (at level 61, m at next level, right associativity) : m_scope.
Notation "m ;;; k" := (bind m (fun _ => k))
  (at level 61, right associativity) : m_scope.

(** The comprehension [[f(col, t) for col, t in d.items()]]. *)
Section MapItems.
Context {A : Type} (f : string -> pyval -> M A).

Fixpoint map_items (d : dict) : M (list A) :=
  match d with
  | [] => ret []
  | (col, t) :: tl =>
      (x <-- f col t ;; xs <-- map_items tl ;; ret (x :: xs))%m
  end.
End MapItems.

(** [_translate_record_to_bq_schema], with the method it calls back,
    [jsonschema_prop_to_bq_column], as the parameter [column]. *)
Definition translate_record_with (column : string -> pyval -> M SchemaField)
    (safe_name : string) (schema_property : pyval) (mode : string) : M SchemaField :=
  match schema_property with
  | PDict d =>
      (fields <--
         with_key "properties"
           (fun props =>
              match props with
              | PDict ps => map_items column ps
              | _ => raise AttributeError      (* no [.items()] *)
              end)
           (ret [])                             (* the default [{}] *)
           d ;;
       match fields with
       | _ :: _ => ret (mkSchemaField safe_name "RECORD" mode fields)
       | [] =>
           set_coerced ;;;
           ret (mkSchemaField safe_name "string" mode [])
       end)%m
  | _ => raise AttributeError                   (* no [.get] *)
  end.

(** The [except KeyError] branch of the array case. *)
Definition coerced_column (safe_name : string) : M SchemaField :=
  (set_coerced ;;; ret (mkSchemaField safe_name "string" "NULLABLE" []))%m.

Fixpoint jsonschema_prop_to_bq_column (name : string) (schema_property : pyval)
    {struct schema_property} : M SchemaField :=
  let safe_name := safe_column_name name false in
  match schema_property with
  | PDict d =>
      let property_type := dict_get_default "type" d (PStr "string") in
      let property_format := dict_get_default "format" d PNone in
      (is_array <-- lift (py_in "array" property_type) ;;
       if is_array then
         with_key "items"
           (fun items_schema =>
              match (ty <- getitem items_schema "type" ;;
                     fmt <- py_get items_schema "format" PNone ;;
                     bigquery_type ty fmt)%py with
              | Raise KeyError => coerced_column safe_name
              | Raise e => raise e
              | Ok items_type =>
                  if String.eqb items_type "record" then
                    translate_record_with jsonschema_prop_to_bq_column
                      safe_name items_schema "REPEATED"
                  else ret (mkSchemaField safe_name items_type "REPEATED" [])
              end)
           (coerced_column safe_name)           (* [schema_property["items"]] raised *)
           d
       else
         is_object <-- lift (py_in "object" property_type) ;;
         if is_object then
           translate_record_with jsonschema_prop_to_bq_column
             safe_name schema_property "NULLABLE"
         else
           result_type <-- lift (bigquery_type property_type property_format) ;;
           ret (mkSchemaField safe_name result_type "NULLABLE" []))%m
  | _ => raise AttributeError                   (* no [.get] *)
  end.

(** [BaseBigQuerySink.__init__]: the flag starts [False] and every
    property of [schema["properties"]] is translated in order. *)
Definition init_bigquery_schema (schema : pyval) : result (list SchemaField * bool) :=
  match getitem schema "properties" with
  | Ok (PDict props) => map_items jsonschema_prop_to_bq_column props false
  | Ok _ => Raise AttributeError                (* no [.items()] *)
  | Raise e => Raise e
  end.

(** [_translate_record_to_bq_schema] as the method the class declares. *)
Definition _translate_record_to_bq_schema :=
  translate_record_with jsonschema_prop_to_bq_column.

(** ** Table provisioning: [start_batch] *)

(** What the sink sees of the warehouse: the live table's columns, if the
    table exists, and the schemas sent by [update_table] so far. *)
Record Warehouse : Type :=
  mkWarehouse {
    wh_table : option (list SchemaField);
    wh_updates : list (list SchemaField)
  }.

(** [create_table(Table(name, schema), exists_ok=True)]: a table that is
    missing is created with the given columns; the live table is returned. *)
Definition create_table (schema : list SchemaField) (w : Warehouse)
  : list SchemaField * Warehouse :=
  match wh_table w with
  | Some live => (live, w)
  | None => (schema, mkWarehouse (Some schema) (wh_updates w))
  end.

(** [update_table(table, ["schema"])]. *)
Definition update_table (schema : list SchemaField) (w : Warehouse) : Warehouse :=
  mkWarehouse (Some schema) (wh_updates w ++ [schema]).

(** [field in table.schema] goes through the [==] of [SchemaField], which
    belongs to the client library: it is the parameter [field_eq]. *)
Definition start_batch (field_eq : SchemaField -> SchemaField -> bool)
    (bigquery_schema : list SchemaField) (w : Warehouse) : Warehouse :=
  let '(table_schema, w) := create_table bigquery_schema w in
  let original_schema := table_schema in
  let fields_to_add :=
    fold_left
      (fun fields_to_add field =>
         if negb (existsb (fun live => field_eq field live) table_schema)
         then fields_to_add ++ [field]
         else fields_to_add)
      bigquery_schema [] in
  match fields_to_add with
  | _ :: _ =>
      let new_schema := original_schema ++ fields_to_add in
      update_table new_schema w
  | [] => w
  end.

(** The client library's [SchemaField.__eq__] on the attributes modelled
    here: equal names, equal types and modes once upper-cased (both are
    ASCII identifiers), and equal nested fields. *)
Definition char_upper (c : ascii) : ascii :=
  if ascii_in_range 97 122 c then ascii_of_nat (nat_of_ascii c - 32) else c.

Definition str_upper (s : string) : string := str_map char_upper s.

Fixpoint SchemaField_eqb (f g : SchemaField) {struct f} : bool :=
  String.eqb (sf_name f) (sf_name g)
  && String.eqb (str_upper (sf_type f)) (str_upper (sf_type g))
  && String.eqb (str_upper (sf_mode f)) (str_upper (sf_mode g))
  && (fix all2 (fs gs : list SchemaField) {struct fs} : bool :=
        match fs, gs with
        | [], [] => true
        | f' :: fs', g' :: gs' => SchemaField_eqb f' g' && all2 fs' gs'
        | _, _ => false
        end) (sf_fields f) (sf_fields g).

(** ** Record coercion *)

(** [orjson.dumps(v).decode("utf-8")]: the serializer is a library of its
    own; this is its compact output for the values above.  Integers
    outside 64 bits are refused with its [JSONEncodeError], a [TypeError]. *)
Definition dquote : ascii := ascii_of_nat 34.
Definition backslash : ascii := ascii_of_nat 92.

Definition hex_digit (n : nat) : ascii :=
  ascii_of_nat (if Nat.ltb n 10 then 48 + n else 87 + n).

Definition json_escape_char (c : ascii) : string :=
  let n := nat_of_ascii c in
  let esc (x : ascii) := String backslash (String x EmptyString) in
  if Nat.eqb n 34 then esc dquote
  else if Nat.eqb n 92 then esc backslash
  else if Nat.eqb n 8 then esc "b"%char
  else if Nat.eqb n 9 then esc "t"%char
  else if Nat.eqb n 10 then esc "n"%char
  else if Nat.eqb n 12 then esc "f"%char
  else if Nat.eqb n 13 then esc "r"%char
  else if Nat.ltb n 32 then
    String backslash
      (String "u" (String "0" (String "0"
         (String (hex_digit (n / 16)) (String (hex_digit (n mod 16)) EmptyString)))))
  else String c EmptyString.

Fixpoint json_escape (s : string) : string :=
  match s with
  | EmptyString => EmptyString
  | String c s' => (json_escape_char c ++ json_escape s')%string
  end.

Definition json_quote (s : string) : string :=
  String dquote (json_escape s ++ String dquote EmptyString)%string.

Definition json_int (z : Z) : result string :=
  if (Z.leb (- 2 ^ 63) z && Z.leb z (2 ^ 64 - 1))%Z
  then Ok (NilZero.string_of_int (Z.to_int z))
  else Raise TypeError.

Fixpoint orjson_dumps (v : pyval) : result string :=
  match v with
  | PNone => Ok "null"
  | PBool b => Ok (if b then "true" else "false")
  | PInt z => json_int z
  | PStr s => Ok (json_quote s)
  | PList l =>
      (parts <-
         (fix elements (l : list pyval) : result (list string) :=
            match l with
            | [] => Ok []
            | x :: tl => a <- orjson_dumps x ;; b <- elements tl ;; Ok (a :: b)
            end) l ;;
       Ok ("[" ++ String.concat "," parts ++ "]")%string)%py
  | PDict d =>
      (parts <-
         (fix members (d : dict) : result (list string) :=
            match d with
            | [] => Ok []
            | (k, x) :: tl =>
                a <- orjson_dumps x ;; b <- members tl ;;
                Ok ((json_quote k ++ ":" ++ a)%string :: b)
            end) d ;;
       Ok ("{" ++ String.concat "," parts ++ "}")%string)%py
  end.

(** A loop body applied to every element or every item, in order, until
    one raises. *)
Section Traverse.
Context {A B : Type} (f : A -> result B).

Fixpoint traverse (l : list A) : result (list B) :=
  match l with
  | [] => Ok []
  | x :: tl => (y <- f x ;; ys <- traverse tl ;; Ok (y :: ys))%py
  end.
End Traverse.

Definition is_dict (v : pyval) : bool :=
  match v with PDict _ => true | _ => false end.

(** [_parse_json_with_props(record, _prop_spec)].  The method rewrites
    [record] in place and returns it; here it returns the rewritten value.
    The keys of a dict are distinct, so the assignment [record[name] = ...]
    made while visiting the item [name] changes that item alone, and the
    loop is a map over the items.  A nested dict or list item that a
    recursive call rewrites is the object stored in its parent. *)
Fixpoint _parse_json_with_props (record _prop_spec : pyval) {struct record}
  : result pyval :=
  match record with
  | PDict items =>
      (items' <-
         traverse
           (fun '(name, contents) =>
              prop_spec <- py_get _prop_spec name PNone ;;
              if truthy prop_spec then
                ty <- getitem prop_spec "type" ;;
                has_object <- py_in "object" ty ;;
                if has_object && is_dict contents then
                  props <- py_get prop_spec "properties" PNone ;;
                  if negb (truthy props) then
                    s <- orjson_dumps contents ;; Ok (name, PStr s)
                  else
                    contents' <- _parse_json_with_props contents props ;;
                    Ok (name, contents')
                else
                  has_array <- py_in "array" ty ;;
                  match contents with
                  | PList l =>
                      if has_array then
                        items_schema <- py_get prop_spec "items" PNone ;;
                        if truthy items_schema then
                          l' <- traverse
                                  (fun item => _parse_json_with_props item items_schema)
                                  l ;;
                          Ok (name, PList l')
                        else
                          s <- orjson_dumps contents ;; Ok (name, PStr s)
                      else Ok (name, contents)
                  | _ => Ok (name, contents)
                  end
              else Ok (name, contents))
           items ;;
       Ok (PDict items'))%py
  | _ => Raise AttributeError                   (* no [.items()] *)
  end.

(** ** [preprocess_record] *)

Section Preprocess.
(** [datetime.datetime] values and their [isoformat()]. *)
Variable datetime : Type.
Variable isoformat : datetime -> string.

(** The part of the sink that [preprocess_record] reads. *)
Record Sink : Type :=
  mkSink {
    add_record_metadata : bool;               (* [self.config[...]] *)
    schema : pyval;                           (* [self.schema] *)
    _contains_coerced_field : bool
  }.

(** The batch context: [context.get("batch_start_time", None)]. *)
Record BatchContext : Type :=
  mkContext { batch_start_time : option datetime }.

(** The three readings of [datetime.datetime.now()] that one call can
    make, in the order of the call sites. *)
Record Clock : Type :=
  mkClock { now_extracted : datetime; now_received : datetime; now_batched : datetime }.

Definition preprocess_record (self : Sink) (clock : Clock)
    (record : dict) (context : BatchContext) : result pyval :=
  let record :=
    if add_record_metadata self then
      let record :=
        if negb (dict_mem "_sdc_extracted_at" record)
        then dict_set "_sdc_extracted_at" (PStr (isoformat (now_extracted clock))) record
        else record in
      if negb (dict_mem "_sdc_received_at" record)
      then dict_set "_sdc_received_at" (PStr (isoformat (now_received clock))) record
      else record
    else record in
  let record :=
    dict_set "_sdc_batched_at"
      (PStr (isoformat
               match batch_start_time context with
               | Some t => t
               | None => now_batched clock
               end))
      record in
  if _contains_coerced_field self then
    (_prop_spec <- getitem (schema self) "properties" ;;
     _parse_json_with_props (PDict record) _prop_spec)%py
  else Ok (PDict record).
End Preprocess.

Arguments mkContext {datetime} batch_start_time.
Arguments mkClock {datetime} now_extracted now_received now_batched.
Arguments preprocess_record {datetime} isoformat self clock record context.

(** ** Streaming delivery: [BigQueryStreamingSink] *)

(** What a call of [process_batch] leaves behind, in order. *)
Inductive event : Type :=
| InsertRowsJson (json_rows : list pyval)
| LogNewRows
| LogInsertErrors (errors : list pyval).

Record StreamingSink : Type :=
  mkStreamingSink {
    records_to_drain : list pyval;
    current_size : nat;                         (* records since the last drain *)
    draining : bool;                            (* between [start_drain] and [mark_drained] *)
    trace : list event
  }.

Definition process_record (record : pyval) (s : StreamingSink) : StreamingSink :=
  mkStreamingSink (records_to_drain s ++ [record]) (current_size s) (draining s) (trace s).

(** [start_drain] and [mark_drained] are the SDK's: the first opens the
    drain, the second closes it and resets the record count. *)
Definition start_drain (s : StreamingSink) : StreamingSink :=
  mkStreamingSink (records_to_drain s) (current_size s) true (trace s).

Definition mark_drained (s : StreamingSink) : StreamingSink :=
  mkStreamingSink (records_to_drain s) 0 false (trace s).

Definition emit (e : event) (s : StreamingSink) : StreamingSink :=
  mkStreamingSink (records_to_drain s) (current_size s) (draining s) (trace s ++ [e]).

(** [insert_rows_json] is the client's: given the rows, it answers with
    the list of per-row errors. *)
Definition process_batch (insert_rows_json : list pyval -> list pyval)
    (s : StreamingSink) : StreamingSink :=
  if Nat.eqb (current_size s) 0 then s
  else
    let s := start_drain s in
    let errors := insert_rows_json (records_to_drain s) in
    let s := emit (InsertRowsJson (records_to_drain s)) s in
    let s :=
      match errors with
      | [] => emit LogNewRows s
      | _ => emit (LogInsertErrors errors) s
      end in
    let s := mark_drained s in
    mkStreamingSink [] (current_size s) (draining s) (trace s).

(** ** Definitions used by the statements *)

(** Induction on values that reaches the elements of lists and the values
    of dicts. *)
Section PyvalInd.
Variable P : pyval -> Prop.
Hypothesis HNone : P PNone.
Hypothesis HBool : forall b, P (PBool b).
Hypothesis HInt : forall z, P (PInt z).
Hypothesis HStr : forall s, P (PStr s).
Hypothesis HList : forall l, Forall P l -> P (PList l).
Hypothesis HDict : forall d, Forall (fun kv => P (snd kv)) d -> P (PDict d).

Fixpoint pyval_nested_ind (v : pyval) : P v :=
  match v with
  | PNone => HNone
  | PBool b => HBool b
  | PInt z => HInt z
  | PStr s => HStr s
  | PList l =>
      HList l
        ((fix elements (l : list pyval) : Forall P l :=
            match l with
            | [] => Forall_nil _
            | x :: tl => Forall_cons _ (pyval_nested_ind x) (elements tl)
            end) l)
  | PDict d =>
      HDict d
        ((fix members (d : dict) : Forall (fun kv => P (snd kv)) d :=
            match d with
            | [] => Forall_nil _
            | (k, x) :: tl =>
                Forall_cons (P := fun kv => P (snd kv)) (k, x)
                  (pyval_nested_ind x) (members tl)
            end) d)
  end.
End PyvalInd.

(** Membership of a string in a list of strings, as a boolean. *)
Definition mem (s : string) (l : list string) : bool :=
  existsb (fun t => String.eqb t s) l.

(** A declared type given as a list of type names. *)
Definition type_list (type_set : list string) : pyval := PList (map PStr type_set).

(** [format == s] for an optional format. *)
Definition format_is (format : option string) (s : string) : bool :=
  match format with
  | Some f => String.eqb f s
  | None => false
  end.

(** The precedence list, as the specification words it. *)
Definition TypeMapper_map (type_set : list string) (format : option string) : string :=
  if format_is format "date-time" then "timestamp"
  else if format_is format "date" then "date"
  else if format_is format "time" then "time"
  else if mem "number" type_set then "numeric"
  else if mem "integer" type_set && mem "string" type_set then "string"
  else if mem "integer" type_set then "integer"
  else if mem "boolean" type_set then "boolean"
  else if mem "object" type_set then "record"
  else "string".

(** A format as the schema holds it: a string, or [None] when absent. *)
Definition py_format (format : option string) : pyval :=
  match format with
  | Some f => PStr f
  | None => PNone
  end.

(** The declared type and format of a node, with the defaults of [.get]. *)
Definition declared_type (d : dict) : pyval := dict_get_default "type" d (PStr "string").
Definition declared_format (d : dict) : pyval := dict_get_default "format" d PNone.

(** [s in v] is defined for strings, lists and dicts. *)
Definition is_container (v : pyval) : bool :=
  match v with
  | PStr _ | PList _ | PDict _ => true
  | _ => false
  end.

(** A schema node of the expected shape: a mapping whose type, where
    given, is a string, a list or a mapping, whose [properties], where
    given, is a mapping of such nodes, and whose [items], where given, is
    such a node. *)
Fixpoint schema_shaped (node : pyval) : bool :=
  match node with
  | PDict d =>
      is_container (dict_get_default "type" d (PStr "string"))
      && with_key "properties"
           (fun props =>
              match props with
              | PDict ps => forallb (fun '(_, t) => schema_shaped t) ps
              | _ => false
              end)
           true d
      && with_key "items" schema_shaped true d
  | _ => false
  end.

(** The stream schema: a mapping with a [properties] mapping of nodes. *)
Definition schema_shaped_stream (schema : pyval) : bool :=
  match getitem schema "properties" with
  | Ok (PDict props) => forallb (fun '(_, t) => schema_shaped t) props
  | _ => false
  end.

(** The properties a stream schema declares. *)
Definition declared_properties (schema : pyval) : dict :=
  match getitem schema "properties" with
  | Ok (PDict props) => props
  | _ => []
  end.

(** What the induction carries: a shaped node is translated without
    raising, both as a property and as a record, and a mapping of shaped
    nodes is translated without raising, one column per item. *)
Definition translates (v : pyval) : Prop :=
  (schema_shaped v = true ->
   (forall name flag, exists col flag',
       jsonschema_prop_to_bq_column name v flag = Ok (col, flag'))
   /\ (forall safe_name mode flag, exists col flag',
         _translate_record_to_bq_schema safe_name v mode flag = Ok (col, flag')))
  /\ (forall ps, v = PDict ps ->
      forallb (fun '(_, t) => schema_shaped t) ps = true ->
      forall flag, exists cols flag',
        map_items jsonschema_prop_to_bq_column ps flag = Ok (cols, flag')
        /\ length cols = length ps).

(** The character class [[a-z0-9_]]. *)
Definition is_lower_word_char (c : ascii) : bool :=
  ascii_in_range 97 122 c || ascii_in_range 48 57 c || Ascii.eqb c "_"%char.

Fixpoint str_forallb (f : ascii -> bool) (s : string) : bool :=
  match s with
  | EmptyString => true
  | String c s' => f c && str_forallb f s'
  end.

(** Every character of the name is in the class. *)
Definition name_chars_ok (s : string) : bool := str_forallb is_lower_word_char s.

(** The same for a column and all the columns nested in it. *)
Fixpoint column_names_ok (f : SchemaField) : bool :=
  name_chars_ok (sf_name f) && forallb column_names_ok (sf_fields f).

(** What the induction carries for the names: the column of a property,
    the column of a record under an admissible name, and the columns of
    a mapping of properties. *)
Definition names_ok_from (v : pyval) : Prop :=
  (forall name flag col flag',
      jsonschema_prop_to_bq_column name v flag = Ok (col, flag') ->
      column_names_ok col = true)
  /\ (forall safe_name mode flag col flag',
        name_chars_ok safe_name = true ->
        _translate_record_to_bq_schema safe_name v mode flag = Ok (col, flag') ->
        column_names_ok col = true)
  /\ (forall ps, v = PDict ps ->
      forall flag cols flag',
        map_items jsonschema_prop_to_bq_column ps flag = Ok (cols, flag') ->
        forallb column_names_ok cols = true).

(** The seven characters of the compact serialization of the object with
    the one member [a] equal to 1: brace, quote, a, quote, colon, 1, brace. *)
Definition json_a_1 : string :=
  String "{" (String dquote (String "a" (String dquote ":1}"))).

(** The desired columns that equal no live column, in their order. *)
Definition missing_fields (field_eq : SchemaField -> SchemaField -> bool)
    (live desired : list SchemaField) : list SchemaField :=
  filter (fun field => negb (existsb (fun l => field_eq field l) live)) desired.

(** ** Further definitions used by the statements *)

(** A format that decides the column type by itself. *)
Definition date_format (property_format : pyval) : bool :=
  py_eq_str property_format "date-time" || py_eq_str property_format "date"
  || py_eq_str property_format "time".

(** The column types [bigquery_type] can name, and those of them that
    stand for a scalar column. *)
Definition mapped_types : list string :=
  ["timestamp"; "date"; "time"; "numeric"; "string"; "integer"; "boolean"; "record"].

Definition scalar_types : list string :=
  ["timestamp"; "date"; "time"; "numeric"; "string"; "integer"; "boolean"].

(** A computation that only ever raises the flag: run with any flag, it
    gives what it gives with the flag down, with the incoming flag or-ed in. *)
Definition flag_law {A} (m : M A) : Prop :=
  forall flag,
    m flag = match m false with
             | Ok (a, f) => Ok (a, flag || f)
             | Raise e => Raise e
             end.

(** A column tree as the warehouse accepts it: a [RECORD] column has at
    least one nested column, any other column has a scalar type and no
    nested column, and the mode is [NULLABLE] or [REPEATED]. *)
Fixpoint column_wf (f : SchemaField) : bool :=
  (if String.eqb (sf_type f) "RECORD"
   then match sf_fields f with [] => false | _ => true end
   else mem (sf_type f) scalar_types
        && match sf_fields f with [] => true | _ => false end)
  && (String.eqb (sf_mode f) "NULLABLE" || String.eqb (sf_mode f) "REPEATED")
  && forallb column_wf (sf_fields f).

(** What the induction carries for the flag and for the shape of the
    columns. *)
Definition flag_law_from (v : pyval) : Prop :=
  (forall name, flag_law (jsonschema_prop_to_bq_column name v))
  /\ (forall safe_name mode, flag_law (_translate_record_to_bq_schema safe_name v mode))
  /\ (forall ps, v = PDict ps -> flag_law (map_items jsonschema_prop_to_bq_column ps)).

Definition columns_wf_from (v : pyval) : Prop :=
  (forall name flag col flag',
      jsonschema_prop_to_bq_column name v flag = Ok (col, flag') ->
      column_wf col = true)
  /\ (forall safe_name mode flag col flag',
        String.eqb mode "NULLABLE" || String.eqb mode "REPEATED" = true ->
        _translate_record_to_bq_schema safe_name v mode flag = Ok (col, flag') ->
        column_wf col = true)
  /\ (forall ps, v = PDict ps ->
      forall flag cols flag',
        map_items jsonschema_prop_to_bq_column ps flag = Ok (cols, flag') ->
        forallb column_wf cols = true).

(** The body of the loop of [_parse_json_with_props], for one item of the
    record, with the recursive call as the parameter [parse]. *)
Definition coerce_item (parse : pyval -> pyval -> result pyval) (_prop_spec : pyval)
    (item : string * pyval) : result (string * pyval) :=
  let '(name, contents) := item in
  (prop_spec <- py_get _prop_spec name PNone ;;
   if truthy prop_spec then
     ty <- getitem prop_spec "type" ;;
     has_object <- py_in "object" ty ;;
     if has_object && is_dict contents then
       props <- py_get prop_spec "properties" PNone ;;
       if negb (truthy props) then
         s <- orjson_dumps contents ;; Ok (name, PStr s)
       else
         contents' <- parse contents props ;;
         Ok (name, contents')
     else
       has_array <- py_in "array" ty ;;
       match contents with
       | PList l =>
           if has_array then
             items_schema <- py_get prop_spec "items" PNone ;;
             if truthy items_schema then
               l' <- traverse (fun item => parse item items_schema) l ;;
               Ok (name, PList l')
             else
               s <- orjson_dumps contents ;; Ok (name, PStr s)
           else Ok (name, contents)
       | _ => Ok (name, contents)
       end
   else Ok (name, contents))%py.

(** A value the coercer has nothing to do with: neither a mapping nor a
    list. *)
Definition is_scalar (v : pyval) : bool :=
  match v with
  | PDict _ | PList _ => false
  | _ => true
  end.

(** What the induction carries for the second pass of the coercer. *)
Definition coercer_stable (v : pyval) : Prop :=
  (forall spec r, _parse_json_with_props v spec = Ok r ->
                  _parse_json_with_props r spec = Ok r)
  /\ (forall l, v = PList l ->
      forall spec l',
        traverse (fun item => _parse_json_with_props item spec) l = Ok l' ->
        traverse (fun item => _parse_json_with_props item spec) l' = Ok l').

(** The record after the metadata assignments of [preprocess_record],
    before any coercion. *)
Definition stamped {datetime : Type} (isoformat : datetime -> string)
    (self : Sink) (clock : Clock datetime) (record : dict)
    (context : BatchContext datetime) : dict :=
  let record :=
    if add_record_metadata self then
      let record :=
        if negb (dict_mem "_sdc_extracted_at" record)
        then dict_set "_sdc_extracted_at" (PStr (isoformat (now_extracted datetime clock))) record
        else record in
      if negb (dict_mem "_sdc_received_at" record)
      then dict_set "_sdc_received_at" (PStr (isoformat (now_received datetime clock))) record
      else record
    else record in
  dict_set "_sdc_batched_at"
    (PStr (isoformat
             match batch_start_time datetime context with
             | Some t => t
             | None => now_batched datetime clock
             end))
    record.

(** ** Load delivery: [BigQueryBatchSink] and [BigQueryGcsStagingSink] *)

Definition bytes := list ascii.

(** [s.encode("utf-8")], for the characters a [str] holds here. *)
Definition utf8_char (c : ascii) : bytes :=
  let n := nat_of_ascii c in
  if Nat.ltb n 128 then [c]
  else [ascii_of_nat (192 + n / 64); ascii_of_nat (128 + n mod 64)].

Definition utf8_encode (s : string) : bytes :=
  flat_map utf8_char (list_ascii_of_string s).

Definition newline : ascii := ascii_of_nat 10.

(** [orjson.dumps(record, option=orjson.OPT_APPEND_NEWLINE)]. *)
Definition orjson_dumps_line (record : pyval) : result bytes :=
  (s <- orjson_dumps record ;; Ok (utf8_encode s ++ [newline]))%py.

(** [io.BytesIO]: the content and the stream position. *)
Record BytesIO : Type :=
  mkBytesIO { getvalue : bytes; tell : nat }.

Definition BytesIO_new : BytesIO := mkBytesIO [] 0.

(** [io.write(b)]: [b] replaces the bytes from the position on, the
    content growing (with zero bytes up to the position) as needed;
    writing nothing changes nothing. *)
Definition io_write (b : bytes) (io : BytesIO) : BytesIO :=
  match b with
  | [] => io
  | _ =>
      let padded := getvalue io ++ repeat zero (tell io - length (getvalue io)) in
      mkBytesIO (firstn (tell io) padded ++ b ++ skipn (tell io + length b) padded)
        (tell io + length b)
  end.

(** [io.seek(0)]; [io.flush()] does nothing to a [BytesIO]. *)
Definition io_seek0 (io : BytesIO) : BytesIO := mkBytesIO (getvalue io) 0.

(** The batch context of a load sink: [context.get("records")] and
    [context["batch_id"]]. *)
Record LoadContext : Type :=
  mkLoadContext { ctx_records : option BytesIO; ctx_batch_id : option string }.

(** [process_record] of both load sinks.  A buffer object is always
    true, so a buffer is made only when the context has none. *)
Definition load_process_record (record : pyval) (context : LoadContext)
  : result LoadContext :=
  let data :=
    match ctx_records context with
    | Some data => data
    | None => BytesIO_new
    end in
  (line <- orjson_dumps_line record ;;
   Ok (mkLoadContext (Some (io_write line data)) (ctx_batch_id context)))%py.

(** The records of a batch, in the order they arrive. *)
Fixpoint load_process_records (records : list pyval) (context : LoadContext)
  : result LoadContext :=
  match records with
  | [] => Ok context
  | record :: tl =>
      (context <- load_process_record record context ;;
       load_process_records tl context)%py
  end.

(** A load job, by what it loads; what the sink asks of the clients. *)
Inductive job : Type :=
| FileLoadJob (data : bytes) (table : string)
| UriLoadJob (uri : string) (table : string).

Inductive load_event : Type :=
| LoadTableFromFile (data : bytes) (table : string)
| UploadObject (uri : string) (data : bytes)
| LoadTableFromUri (uri : string) (table : string).

(** The options the sinks read from [self.config], and the stream name. *)
Record Config : Type :=
  mkConfig {
    cfg_project : string;
    cfg_dataset : string;
    cfg_bucket : string;
    cfg_prefix_override : option string;
    cfg_batch_size_limit : option Z
  }.

(** [self._table], set by [BaseBigQuerySink.__init__]. *)
Definition table_name (config : Config) (stream_name : string) : string :=
  (cfg_project config ++ "." ++ cfg_dataset config ++ "." ++ stream_name)%string.

(** [max_size]. *)
Definition max_size (config : Config) : Z :=
  match cfg_batch_size_limit config with
  | Some n => n
  | None => 15000%Z
  end.

(** [self._base_blob_path], set by [BigQueryGcsStagingSink.__init__]. *)
Definition base_blob_path (config : Config) (stream_name : string) : string :=
  ("gs://" ++ cfg_bucket config ++ "/"
   ++ match cfg_prefix_override config with
      | Some prefix => prefix
      | None => "target_bigquery"
      end
   ++ "/" ++ cfg_dataset config ++ "/" ++ stream_name)%string.

Record LoadSink : Type :=
  mkLoadSink {
    ls_config : Config;
    ls_stream_name : string;
    ls_current_size : nat;
    ls_draining : bool;
    job_queue : list job;                       (* one future per submitted job *)
    ls_trace : list load_event
  }.

Definition ls_start_drain (s : LoadSink) : LoadSink :=
  mkLoadSink (ls_config s) (ls_stream_name s) (ls_current_size s) true
    (job_queue s) (ls_trace s).

Definition ls_mark_drained (s : LoadSink) : LoadSink :=
  mkLoadSink (ls_config s) (ls_stream_name s) 0 false (job_queue s) (ls_trace s).

Definition ls_emit (e : load_event) (s : LoadSink) : LoadSink :=
  mkLoadSink (ls_config s) (ls_stream_name s) (ls_current_size s) (ls_draining s)
    (job_queue s) (ls_trace s ++ [e]).

Definition ls_submit (j : job) (s : LoadSink) : LoadSink :=
  mkLoadSink (ls_config s) (ls_stream_name s) (ls_current_size s) (ls_draining s)
    (job_queue s ++ [j]) (ls_trace s).

(** [BigQueryBatchSink.process_batch].  The load call rewinds the buffer
    and reads it to the end; the sink then rewinds it again. *)
Definition batch_process_batch (s : LoadSink) (context : LoadContext)
  : result (LoadSink * LoadContext) :=
  if Nat.eqb (ls_current_size s) 0 then Ok (s, context)
  else
    let s := ls_start_drain s in
    match ctx_records context with
    | None => Raise KeyError                    (* [context["records"]] *)
    | Some data =>
        let table := table_name (ls_config s) (ls_stream_name s) in
        let s := ls_emit (LoadTableFromFile (getvalue data) table) s in
        let s := ls_submit (FileLoadJob (getvalue data) table) s in
        let data := io_seek0 data in
        let s := ls_mark_drained s in
        Ok (s, mkLoadContext (Some data) (ctx_batch_id context))
    end.

(** [BigQueryGcsStagingSink.process_batch]. *)
Definition gcs_process_batch (s : LoadSink) (context : LoadContext)
  : result (LoadSink * LoadContext) :=
  if Nat.eqb (ls_current_size s) 0 then Ok (s, context)
  else
    let s := ls_start_drain s in
    match ctx_records context with
    | None => Raise KeyError                    (* [context["records"]] *)
    | Some data =>
        match ctx_batch_id context with
        | None => Raise KeyError                (* [context["batch_id"]] *)
        | Some batch_id =>
            let target_stage :=
              (base_blob_path (ls_config s) (ls_stream_name s)
               ++ "/" ++ batch_id ++ ".jsonl")%string in
            let data := io_seek0 data in
            let s := ls_emit (UploadObject target_stage (getvalue data)) s in
            let table := table_name (ls_config s) (ls_stream_name s) in
            let s := ls_emit (LoadTableFromUri target_stage table) s in
            let s := ls_submit (UriLoadJob target_stage table) s in
            let data := io_seek0 data in
            let s := ls_mark_drained s in
            Ok (s, mkLoadContext (Some data) (ctx_batch_id context))
        end
    end.

(** The records of a streaming batch, in the order they arrive. *)
Definition process_records (records : list pyval) (s : StreamingSink) : StreamingSink :=
  fold_left (fun s record => process_record record s) records s.

(** The type names of JSON Schema. *)
Definition json_type_names : list string :=
  ["string"; "number"; "integer"; "boolean"; "object"; "array"; "null"].

(** ** Definitions used by the statement on nested names *)

(** Two lists matched element by element. *)
Fixpoint all2 {A B} (f : A -> B -> bool) (l : list A) (l' : list B) {struct l} : bool :=
  match l, l' with
  | [], [] => true
  | x :: tl, y :: tl' => f x y && all2 f tl tl'
  | _, _ => false
  end.

(** The [properties] mapping of a node, when it is one. *)
Definition properties_of (d : dict) : option dict :=
  match dict_get "properties" d with
  | Some (PDict ps) => Some ps
  | _ => None
  end.

(** The properties from which the nested columns of a property are
    built: those of its items when its type includes array, its own
    otherwise. *)
Definition nested_source (schema_property : pyval) : option dict :=
  match schema_property with
  | PDict d =>
      match py_in "array" (declared_type d) with
      | Ok true =>
          match dict_get "items" d with
          | Some (PDict di) => properties_of di
          | _ => None
          end
      | Ok false => properties_of d
      | Raise _ => None
      end
  | _ => None
  end.

(** [col] is named after the property [name], and its nested columns, if
    any, are named one by one, in order, after the properties they are
    built from, and so on at every level. *)
Fixpoint named_from (name : string) (schema_property : pyval) (col : SchemaField)
    {struct col} : bool :=
  String.eqb (sf_name col) (safe_column_name name false)
  && match sf_fields col with
     | [] => true
     | fields =>
         match nested_source schema_property with
         | Some ps => all2 (fun f '(k, t) => named_from k t f) fields ps
         | None => false
         end
     end.

(** What the induction carries for the nested names. *)
Definition names_follow (v : pyval) : Prop :=
  (forall name flag col flag',
      jsonschema_prop_to_bq_column name v flag = Ok (col, flag') ->
      named_from name v col = true)
  /\ (forall safe_name mode flag col flag',
        _translate_record_to_bq_schema safe_name v mode flag = Ok (col, flag') ->
        sf_name col = safe_name
        /\ (sf_fields col = []
            \/ exists d ps,
                 v = PDict d /\ properties_of d = Some ps
                 /\ all2 (fun f '(k, t) => named_from k t f) (sf_fields col) ps = true))
  /\ (forall ps, v = PDict ps ->
      forall flag cols flag',
        map_items jsonschema_prop_to_bq_column ps flag = Ok (cols, flag') ->
        all2 (fun f '(k, t) => named_from k t f) cols ps = true).

(** * Properties *)

(** ** Basic facts *)

Example safe_column_name_ex1 : safe_column_name "My-Col`umn 1" false = "my_column_1".
Proof. reflexivity. Qed.

Example bigquery_type_ex1 :
  bigquery_type (PList [PStr "null"; PStr "integer"]) PNone = Ok "integer".
Proof. reflexivity. Qed.

Example bigquery_type_ex2 : bigquery_type PNone PNone = Raise TypeError.
Proof. reflexivity. Qed.

Lemma with_key_dict_get {A} (k : string) (present : pyval -> A) (absent : A) (d : dict) :
  with_key k present absent d =
  match dict_get k d with
  | Some v => present v
  | None => absent
  end.
Proof.
  induction d as [| [k' v] tl IH]; simpl; [reflexivity |].
  destruct (String.eqb k' k); [reflexivity | exact IH].
Qed.

Lemma dict_get_In (k : string) (d : dict) (v : pyval) :
  dict_get k d = Some v -> In (k, v) d.
Proof.
  induction d as [| [k' v'] tl IH]; simpl; [discriminate |].
  destruct (String.eqb_spec k' k) as [-> | _].
  - intros [= ->]. now left.
  - intros H. right. now apply IH.
Qed.

Lemma py_in_type_list (s : string) (type_set : list string) :
  py_in s (type_list type_set) = Ok (mem s type_set).
Proof.
  unfold type_list, mem. simpl. f_equal.
  induction type_set as [| t tl IH]; simpl; [reflexivity | now rewrite IH].
Qed.

(** ** The type mapper *)

Lemma py_eq_str_format (format : option string) (s : string) :
  py_eq_str (py_format format) s = format_is format s.
Proof. destruct format; reflexivity. Qed.

Lemma bigquery_type_type_list (type_set : list string) (format : option string) :
  bigquery_type (type_list type_set) (py_format format)
  = Ok (TypeMapper_map type_set format).
Proof.
  unfold bigquery_type, TypeMapper_map.
  rewrite !py_eq_str_format, !py_in_type_list. simpl.
  destruct (format_is format "date-time"); [reflexivity |].
  destruct (format_is format "date"); [reflexivity |].
  destruct (format_is format "time"); [reflexivity |].
  destruct (mem "number" type_set); [reflexivity |].
  destruct (mem "integer" type_set); simpl.
  - now destruct (mem "string" type_set).
  - destruct (mem "boolean" type_set); [reflexivity |].
    now destruct (mem "object" type_set).
Qed.

(** C5. For every type set and every format, [bigquery_type] returns,
    without raising, the column type that the first matching rule of the
    precedence list gives: the three formats first, then number, then
    integer together with string, then integer, boolean, object, and
    string for anything else. *)
Theorem bigquery_type_precedence (type_set : list string) (format : option string) :
  bigquery_type (type_list type_set) (py_format format)
  = Ok (TypeMapper_map type_set format).
Proof. apply bigquery_type_type_list. Qed.

(** ** Schema translation, case by case *)

(** The two methods, with the lookups written as [dict_get]. *)
Lemma translate_record_with_eq column safe_name d mode :
  translate_record_with column safe_name (PDict d) mode =
  (fields <--
     match dict_get "properties" d with
     | Some (PDict ps) => map_items column ps
     | Some _ => raise AttributeError
     | None => ret []
     end ;;
   match fields with
   | _ :: _ => ret (mkSchemaField safe_name "RECORD" mode fields)
   | [] => set_coerced ;;; ret (mkSchemaField safe_name "string" mode [])
   end)%m.
Proof.
  unfold translate_record_with. rewrite with_key_dict_get.
  destruct (dict_get "properties" d) as [[] |]; reflexivity.
Qed.

Lemma jsonschema_prop_to_bq_column_eq name d :
  jsonschema_prop_to_bq_column name (PDict d) =
  (let safe_name := safe_column_name name false in
   is_array <-- lift (py_in "array" (declared_type d)) ;;
   if is_array then
     match dict_get "items" d with
     | Some items_schema =>
         match (ty <- getitem items_schema "type" ;;
                fmt <- py_get items_schema "format" PNone ;;
                bigquery_type ty fmt)%py with
         | Raise KeyError => coerced_column safe_name
         | Raise e => raise e
         | Ok items_type =>
             if String.eqb items_type "record" then
               _translate_record_to_bq_schema safe_name items_schema "REPEATED"
             else ret (mkSchemaField safe_name items_type "REPEATED" [])
         end
     | None => coerced_column safe_name
     end
   else
     is_object <-- lift (py_in "object" (declared_type d)) ;;
     if is_object then
       _translate_record_to_bq_schema safe_name (PDict d) "NULLABLE"
     else
       result_type <-- lift (bigquery_type (declared_type d) (declared_format d)) ;;
       ret (mkSchemaField safe_name result_type "NULLABLE" []))%m.
Proof.
  cbn [jsonschema_prop_to_bq_column]. rewrite with_key_dict_get.
  reflexivity.
Qed.

(** An array property whose items carry a type: the try block succeeds
    with the mapped item type. *)
Lemma array_items_typed name d di ty items_type flag :
  py_in "array" (declared_type d) = Ok true ->
  dict_get "items" d = Some (PDict di) ->
  dict_get "type" di = Some ty ->
  bigquery_type ty (declared_format di) = Ok items_type ->
  jsonschema_prop_to_bq_column name (PDict d) flag =
  if String.eqb items_type "record" then
    _translate_record_to_bq_schema (safe_column_name name false) (PDict di) "REPEATED" flag
  else Ok (mkSchemaField (safe_column_name name false) items_type "REPEATED" [], flag).
Proof.
  intros Harr Hitems Hty Hbq.
  rewrite jsonschema_prop_to_bq_column_eq. cbv zeta.
  unfold bind at 1, lift. rewrite Harr, Hitems.
  unfold getitem, py_get, rbind. rewrite Hty.
  fold (declared_format di). rewrite Hbq.
  destruct (String.eqb items_type "record"); reflexivity.
Qed.

(** C10, as stated, fails: a union holding integer and string does not
    always give a string column.  With number in the union as well the
    column is numeric, and with a date-time format beside the union it is
    a timestamp; both are REPEATED and leave the flag down. *)
Lemma array_item_union_not_always_string :
  jsonschema_prop_to_bq_column "tags"
    (PDict [("type", PStr "array");
            ("items", PDict [("type", type_list ["integer"; "string"; "number"])])])
    false
  = Ok (mkSchemaField "tags" "numeric" "REPEATED" [], false)
  /\ jsonschema_prop_to_bq_column "tags"
       (PDict [("type", PStr "array");
               ("items", PDict [("type", type_list ["integer"; "string"]);
                                ("format", PStr "date-time")])])
       false
     = Ok (mkSchemaField "tags" "timestamp" "REPEATED" [], false).
Proof. split; reflexivity. Qed.

(** C10, amended.  For an array property whose items declare a union of
    type names, the item type is resolved through the same first-match-wins
    precedence as a top-level type, and the union is never a reason to
    coerce: whenever the precedence list does not give record, the column
    is a REPEATED column of the type the list gives for the union and the
    items' format, and the coercion flag is left as it was.  For a union
    containing both integer and string, with no number in it and no date,
    time or date-time format, that type is string. *)
Theorem array_item_union_uses_precedence
    (name : string) (d di : dict) (type_set : list string) (format : option string)
    (flag : bool) :
  py_in "array" (declared_type d) = Ok true ->
  dict_get "items" d = Some (PDict di) ->
  dict_get "type" di = Some (type_list type_set) ->
  declared_format di = py_format format ->
  TypeMapper_map type_set format <> "record" ->
  jsonschema_prop_to_bq_column name (PDict d) flag
  = Ok (mkSchemaField (safe_column_name name false)
          (TypeMapper_map type_set format) "REPEATED" [], flag)
  /\ (mem "integer" type_set = true ->
      mem "string" type_set = true ->
      mem "number" type_set = false ->
      format_is format "date-time" = false ->
      format_is format "date" = false ->
      format_is format "time" = false ->
      TypeMapper_map type_set format = "string").
Proof.
  intros Harr Hitems Hty Hfmt Hrec. split.
  - rewrite (array_items_typed name d di (type_list type_set)
               (TypeMapper_map type_set format) flag); try assumption.
    + destruct (String.eqb_spec (TypeMapper_map type_set format) "record");
        [contradiction | reflexivity].
    + rewrite Hfmt. apply bigquery_type_type_list.
  - intros Hint Hstr Hnum F1 F2 F3. unfold TypeMapper_map.
    now rewrite F1, F2, F3, Hnum, Hint, Hstr.
Qed.

Lemma array_item_union_uses_precedence_witness :
  jsonschema_prop_to_bq_column "tags"
    (PDict [("type", PStr "array");
            ("items", PDict [("type", type_list ["integer"; "string"])])])
    false
  = Ok (mkSchemaField "tags" "string" "REPEATED" [], false)
  /\ jsonschema_prop_to_bq_column "ids"
       (PDict [("type", PStr "array");
               ("items", PDict [("type", type_list ["null"; "integer"])])])
       true
     = Ok (mkSchemaField "ids" "integer" "REPEATED" [], true).
Proof.
  split.
  - apply (array_item_union_uses_precedence "tags"
             [("type", PStr "array");
              ("items", PDict [("type", type_list ["integer"; "string"])])]
             [("type", type_list ["integer"; "string"])]
             ["integer"; "string"] None false); try reflexivity.
    discriminate.
  - apply (array_item_union_uses_precedence "ids"
             [("type", PStr "array");
              ("items", PDict [("type", type_list ["null"; "integer"])])]
             [("type", type_list ["null"; "integer"])]
             ["null"; "integer"] None true); try reflexivity.
    discriminate.
Defined.

(** A record schema with no properties to translate is coerced. *)
Lemma translate_record_no_properties safe_name d mode flag :
  dict_get "properties" d = None \/ dict_get "properties" d = Some (PDict []) ->
  _translate_record_to_bq_schema safe_name (PDict d) mode flag
  = Ok (mkSchemaField safe_name "string" mode [], true).
Proof.
  intros H. unfold _translate_record_to_bq_schema.
  rewrite translate_record_with_eq.
  destruct H as [-> | ->]; reflexivity.
Qed.

(** A record schema whose properties translate to some columns. *)
Lemma translate_record_some_properties safe_name d mode flag ps fields flag' :
  dict_get "properties" d = Some (PDict ps) ->
  map_items jsonschema_prop_to_bq_column ps flag = Ok (fields, flag') ->
  fields <> [] ->
  _translate_record_to_bq_schema safe_name (PDict d) mode flag
  = Ok (mkSchemaField safe_name "RECORD" mode fields, flag').
Proof.
  intros Hps Hmap Hne. unfold _translate_record_to_bq_schema.
  rewrite translate_record_with_eq, Hps. unfold bind at 1. rewrite Hmap.
  destruct fields; [contradiction | reflexivity].
Qed.

(** ** Translation never raises on a schema-shaped input (C6) *)

Lemma py_in_container (s : string) (v : pyval) :
  is_container v = true -> exists b, py_in s v = Ok b.
Proof. destruct v; simpl; try discriminate; eauto. Qed.

Lemma bigquery_type_container (ty fmt : pyval) :
  is_container ty = true -> exists t, bigquery_type ty fmt = Ok t.
Proof.
  intros Hc. unfold bigquery_type.
  repeat match goal with
         | |- context [if py_eq_str ?a ?b then _ else _] =>
             destruct (py_eq_str a b); [eauto |]
         end.
  destruct (py_in_container "number" ty Hc) as [b1 ->].
  destruct (py_in_container "integer" ty Hc) as [b2 ->].
  destruct (py_in_container "string" ty Hc) as [b3 ->].
  destruct (py_in_container "boolean" ty Hc) as [b4 ->].
  destruct (py_in_container "object" ty Hc) as [b5 ->].
  simpl. destruct b1; [eauto |]. destruct b2; simpl.
  - destruct b3; simpl; eauto.
  - destruct b4; [eauto |]. destruct b5; eauto.
Qed.

(** A comprehension whose body never raises gives one element per item. *)
Lemma map_items_total {A} (f : string -> pyval -> M A) (ps : dict) :
  Forall (fun kv => forall name flag, exists x flag', f name (snd kv) flag = Ok (x, flag')) ps ->
  forall flag, exists xs flag',
    map_items f ps flag = Ok (xs, flag') /\ length xs = length ps.
Proof.
  induction 1 as [| [k t] tl Hhd _ IH]; intros flag.
  - exists [], flag. split; reflexivity.
  - simpl in Hhd. destruct (Hhd k flag) as (x & flag1 & Hx).
    destruct (IH flag1) as (xs & flag2 & Hxs & Hlen).
    exists (x :: xs), flag2. simpl. unfold bind at 1. rewrite Hx.
    unfold bind at 1. rewrite Hxs. split; [reflexivity | simpl; now rewrite Hlen].
Qed.

Lemma schema_shaped_dict (d : dict) :
  schema_shaped (PDict d) = true ->
  is_container (declared_type d) = true
  /\ match dict_get "properties" d with
     | Some (PDict ps) => forallb (fun '(_, t) => schema_shaped t) ps = true
     | Some _ => False
     | None => True
     end
  /\ match dict_get "items" d with
     | Some items => schema_shaped items = true
     | None => True
     end.
Proof.
  cbn [schema_shaped]. rewrite !with_key_dict_get.
  intros H. apply andb_prop in H as [H H3]. apply andb_prop in H as [H1 H2].
  split; [exact H1 |]. split.
  - destruct (dict_get "properties" d) as [[] |]; try discriminate; auto.
  - destruct (dict_get "items" d); auto.
Qed.

Lemma translates_all : forall v, translates v.
Proof.
  induction v as [| b | z | s | l _ | d IH] using pyval_nested_ind;
    try (split; [discriminate | intros ps [=]]).
  assert (Hmap : forall ps, PDict d = PDict ps ->
            forallb (fun '(_, t) => schema_shaped t) ps = true ->
            forall flag, exists cols flag',
              map_items jsonschema_prop_to_bq_column ps flag = Ok (cols, flag')
              /\ length cols = length ps).
  { intros ps [= <-] Hall. apply map_items_total.
    rewrite Forall_forall in IH |- *. rewrite forallb_forall in Hall.
    intros [k t] Hin name flag. simpl.
    destruct (IH _ Hin) as [Hnode _]. specialize (Hall _ Hin). simpl in Hall, Hnode.
    now apply Hnode. }
  split; [| exact Hmap].
  intros Hshaped. apply schema_shaped_dict in Hshaped as (Hty & Hprops & Hitems).
  assert (Hrec : forall safe_name mode flag, exists col flag',
             _translate_record_to_bq_schema safe_name (PDict d) mode flag = Ok (col, flag')).
  { intros safe_name mode flag. unfold _translate_record_to_bq_schema.
    rewrite translate_record_with_eq.
    destruct (dict_get "properties" d) as [props |] eqn:Eprops.
    - destruct props; try contradiction.
      apply dict_get_In in Eprops. rewrite Forall_forall in IH.
      destruct (IH _ Eprops) as [_ Hmapping]. simpl in Hmapping.
      destruct (Hmapping _ eq_refl Hprops flag) as (cols & flag' & Hcols & _).
      unfold bind at 1. rewrite Hcols. destruct cols; cbv; eauto.
    - cbv; eauto. }
  split; [| exact Hrec].
  intros name flag. rewrite jsonschema_prop_to_bq_column_eq. cbv zeta.
  destruct (py_in_container "array" _ Hty) as [is_array Harr].
  destruct (py_in_container "object" _ Hty) as [is_object Hobj].
  unfold bind at 1, lift. rewrite Harr. destruct is_array.
  - destruct (dict_get "items" d) as [items |] eqn:Eitems; [| cbv; eauto].
    apply dict_get_In in Eitems. rewrite Forall_forall in IH.
    destruct (IH _ Eitems) as [Hnode _]. simpl in Hnode.
    destruct (Hnode Hitems) as [_ Hitems_rec].
    destruct items as [| | | | | di]; try discriminate.
    apply schema_shaped_dict in Hitems as (Hity & _ & _).
    unfold getitem, py_get, rbind. unfold declared_type, dict_get_default in Hity.
    destruct (dict_get "type" di) as [ty |]; [| cbv; eauto].
    destruct (bigquery_type_container ty (dict_get_default "format" di PNone) Hity)
      as [items_type ->].
    destruct (String.eqb items_type "record"); [apply Hitems_rec | cbv; eauto].
  - unfold bind at 1. rewrite Hobj. destruct is_object; [apply Hrec |].
    destruct (bigquery_type_container _ (declared_format d) Hty) as [t ->].
    cbv; eauto.
Qed.

(** C6, as stated, fails: translation raises on schemas whose parts are
    not of the expected shape.  A tuple-form [items] (a list of schemas)
    and a null [type] raise [TypeError]; a property that is [true] and a
    null [properties] raise [AttributeError]; a stream schema without
    [properties] raises [KeyError]. *)
Lemma translation_raises_on_malformed_schema :
  init_bigquery_schema
    (PDict [("properties",
             PDict [("tags", PDict [("type", PStr "array");
                                    ("items", PList [PDict [("type", PStr "string")]])])])])
  = Raise TypeError
  /\ init_bigquery_schema
       (PDict [("properties", PDict [("x", PDict [("type", PNone)])])])
     = Raise TypeError
  /\ init_bigquery_schema (PDict [("properties", PDict [("x", PBool true)])])
     = Raise AttributeError
  /\ init_bigquery_schema
       (PDict [("properties",
                PDict [("x", PDict [("type", PStr "object"); ("properties", PNone)])])])
     = Raise AttributeError
  /\ init_bigquery_schema (PDict [("type", PStr "object")]) = Raise KeyError.
Proof. repeat split. Qed.

(** C6, amended.  For every stream schema of the expected shape (a
    mapping with a [properties] mapping; every node a mapping whose
    [type], where given, is a string, list or mapping, whose [properties],
    where given, is a mapping of nodes, and whose [items], where given, is
    a node), however underspecified, translation returns without raising,
    with exactly one column per declared property, hence a non-empty
    list when at least one property is declared. *)
Theorem translation_total_on_shaped_schema (schema : pyval) :
  schema_shaped_stream schema = true ->
  exists cols flag,
    init_bigquery_schema schema = Ok (cols, flag)
    /\ length cols = length (declared_properties schema)
    /\ (declared_properties schema <> [] -> cols <> []).
Proof.
  unfold schema_shaped_stream, init_bigquery_schema, declared_properties.
  destruct (getitem schema "properties") as [props | e]; [| discriminate].
  destruct props as [| | | | | ps]; try discriminate.
  intros Hall.
  destruct (translates_all (PDict ps)) as [_ Hmapping].
  destruct (Hmapping ps eq_refl Hall false) as (cols & flag & Hcols & Hlen).
  exists cols, flag. repeat split; try assumption.
  intros Hne ->. destruct ps; [contradiction | discriminate].
Qed.

Lemma translation_total_on_shaped_schema_witness :
  exists cols flag,
    init_bigquery_schema
      (PDict [("properties",
               PDict [("id", PDict [("type", type_list ["null"; "integer"])]);
                      ("meta", PDict [("type", PStr "object")]);
                      ("tags", PDict [("type", PStr "array")])])])
    = Ok (cols, flag)
    /\ length cols = 3
    /\ cols <> [].
Proof.
  destruct (translation_total_on_shaped_schema
              (PDict [("properties",
                       PDict [("id", PDict [("type", type_list ["null"; "integer"])]);
                              ("meta", PDict [("type", PStr "object")]);
                              ("tags", PDict [("type", PStr "array")])])])
              eq_refl) as (cols & flag & H & Hlen & Hne).
  exists cols, flag. repeat split; [exact H | exact Hlen |].
  apply Hne. discriminate.
Defined.

(** ** Column names (C8) *)

Lemma char_lower_sub_ok (c : ascii) :
  is_lower_word_char (char_lower (if is_word_char c then c else "_"%char)) = true.
Proof. destruct c as [[] [] [] [] [] [] [] []]; reflexivity. Qed.

Lemma safe_column_name_chars (name : string) :
  name_chars_ok (safe_column_name name false) = true.
Proof.
  unfold safe_column_name, name_chars_ok, str_lower, sub_non_word.
  induction (remove_backticks name) as [| c s IH]; simpl; [reflexivity |].
  now rewrite char_lower_sub_ok, IH.
Qed.

Lemma safe_column_name_length (name : string) :
  String.length (safe_column_name name false)
  = String.length (remove_backticks name).
Proof.
  unfold safe_column_name, str_lower, sub_non_word.
  induction (remove_backticks name) as [| c s IH]; simpl; [reflexivity | now rewrite IH].
Qed.

Lemma map_items_forall {A} (Q : A -> Prop) (f : string -> pyval -> M A) (ps : dict) :
  Forall (fun kv => forall name flag x flag', f name (snd kv) flag = Ok (x, flag') -> Q x) ps ->
  forall flag xs flag', map_items f ps flag = Ok (xs, flag') -> Forall Q xs.
Proof.
  induction 1 as [| [k t] tl Hhd _ IH]; intros flag xs flag'; simpl.
  - intros [= <- _]. constructor.
  - unfold bind at 1. destruct (f k t flag) as [[x flag1] |] eqn:Ex; [| discriminate].
    unfold bind at 1. destruct (map_items f tl flag1) as [[xs' flag2] |] eqn:Exs;
      [| discriminate].
    intros [= <- _]. constructor; [now apply (Hhd k flag x flag1) | now apply (IH flag1 xs' flag2)].
Qed.

Lemma leaf_column_names_ok name ty mode :
  column_names_ok (mkSchemaField (safe_column_name name false) ty mode []) = true.
Proof. cbn [column_names_ok sf_name sf_fields forallb]. now rewrite safe_column_name_chars. Qed.

Lemma names_ok_all : forall v, names_ok_from v.
Proof.
  induction v as [| b | z | s | l _ | d IH] using pyval_nested_ind;
    try (repeat split;
         [ intros ? ? ? ? H; discriminate H
         | intros ? ? ? ? ? _ H; discriminate H
         | intros ? [=] ]).
  assert (Hmap : forall ps, PDict d = PDict ps ->
            forall flag cols flag',
              map_items jsonschema_prop_to_bq_column ps flag = Ok (cols, flag') ->
              forallb column_names_ok cols = true).
  { intros ps [= <-] flag cols flag' Hcols. apply forallb_forall.
    apply Forall_forall.
    apply (map_items_forall (fun c => column_names_ok c = true)
             jsonschema_prop_to_bq_column d) with (flag := flag) (flag' := flag');
      [| exact Hcols].
    rewrite Forall_forall in IH |- *. intros kv Hin name fl x fl' Hx.
    destruct (IH _ Hin) as [Hnode _]. now apply (Hnode name fl x fl'). }
  assert (Hrec : forall safe_name mode flag col flag',
             name_chars_ok safe_name = true ->
             _translate_record_to_bq_schema safe_name (PDict d) mode flag = Ok (col, flag') ->
             column_names_ok col = true).
  { intros safe_name mode flag col flag' Hname. unfold _translate_record_to_bq_schema.
    rewrite translate_record_with_eq. unfold bind at 1.
    destruct (dict_get "properties" d) as [props |] eqn:Eprops.
    - destruct props as [| | | | | ps]; try discriminate.
      apply dict_get_In in Eprops. rewrite Forall_forall in IH.
      destruct (IH _ Eprops) as (_ & _ & Hmapping). simpl in Hmapping.
      destruct (map_items jsonschema_prop_to_bq_column ps flag) as [[fields flag1] |] eqn:Ef;
        [| discriminate].
      specialize (Hmapping ps eq_refl flag fields flag1 Ef).
      destruct fields as [| f fs].
      + intros [= <- _]. cbn [column_names_ok sf_name sf_fields forallb].
        now rewrite Hname.
      + intros [= <- _]. cbn [column_names_ok sf_name sf_fields].
        now rewrite Hname, Hmapping.
    - intros [= <- _]. cbn [column_names_ok sf_name sf_fields forallb].
      now rewrite Hname. }
  repeat split; [| exact Hrec | exact Hmap].
  intros name flag col flag'. rewrite jsonschema_prop_to_bq_column_eq. cbv zeta.
  unfold bind at 1, lift.
  destruct (py_in "array" (declared_type d)) as [is_array |]; [| discriminate].
  destruct is_array.
  - destruct (dict_get "items" d) as [items |] eqn:Eitems.
    + apply dict_get_In in Eitems. rewrite Forall_forall in IH.
      destruct (IH _ Eitems) as (_ & Hitems_rec & _). simpl in Hitems_rec.
      destruct (ty <- getitem items "type" ;;
                fmt <- py_get items "format" PNone ;; bigquery_type ty fmt)%py
        as [items_type | e].
      * destruct (String.eqb items_type "record").
        -- apply Hitems_rec, safe_column_name_chars.
        -- intros [= <- _]. apply leaf_column_names_ok.
      * destruct e; try discriminate. intros [= <- _]. apply leaf_column_names_ok.
    + intros [= <- _]. apply leaf_column_names_ok.
  - unfold bind at 1.
    destruct (py_in "object" (declared_type d)) as [is_object |]; [| discriminate].
    destruct is_object.
    + apply Hrec, safe_column_name_chars.
    + unfold bind at 1.
      destruct (bigquery_type (declared_type d) (declared_format d)); [| discriminate].
      intros [= <- _]. apply leaf_column_names_ok.
Qed.

Lemma translate_record_name column safe_name v mode flag col flag' :
  translate_record_with column safe_name v mode flag = Ok (col, flag') ->
  sf_name col = safe_name.
Proof.
  destruct v as [| | | | | d]; try discriminate.
  rewrite translate_record_with_eq. unfold bind at 1.
  destruct (match dict_get "properties" d with
            | Some (PDict ps) => map_items column ps
            | Some _ => raise AttributeError
            | None => ret []
            end flag) as [[fields flag1] |]; [| discriminate].
  destruct fields; intros [= <- _]; reflexivity.
Qed.

Lemma column_name_is_safe name v flag col flag' :
  jsonschema_prop_to_bq_column name v flag = Ok (col, flag') ->
  sf_name col = safe_column_name name false.
Proof.
  destruct v as [| | | | | d]; try discriminate.
  rewrite jsonschema_prop_to_bq_column_eq. cbv zeta. unfold bind at 1, lift.
  destruct (py_in "array" (declared_type d)) as [is_array |]; [| discriminate].
  destruct is_array.
  - destruct (dict_get "items" d) as [items |]; [| now intros [= <- _]].
    destruct (ty <- getitem items "type" ;;
              fmt <- py_get items "format" PNone ;; bigquery_type ty fmt)%py
      as [items_type | e].
    + destruct (String.eqb items_type "record");
        [apply translate_record_name | now intros [= <- _]].
    + destruct e; try discriminate. now intros [= <- _].
  - unfold bind at 1.
    destruct (py_in "object" (declared_type d)) as [is_object |]; [| discriminate].
    destruct is_object; [apply translate_record_name |].
    unfold bind at 1.
    destruct (bigquery_type (declared_type d) (declared_format d)); [| discriminate].
    now intros [= <- _].
Qed.

Lemma map_items_names ps : forall flag cols flag',
  map_items jsonschema_prop_to_bq_column ps flag = Ok (cols, flag') ->
  map sf_name cols = map (fun '(name, _) => safe_column_name name false) ps.
Proof.
  induction ps as [| [k t] tl IH]; intros flag cols flag'; simpl.
  - now intros [= <- _].
  - unfold bind at 1.
    destruct (jsonschema_prop_to_bq_column k t flag) as [[x flag1] |] eqn:Ex;
      [| discriminate].
    unfold bind at 1.
    destruct (map_items jsonschema_prop_to_bq_column tl flag1) as [[xs flag2] |] eqn:Exs;
      [| discriminate].
    intros [= <- _]. simpl. f_equal; [now apply column_name_is_safe in Ex | now apply IH in Exs].
Qed.

(** C8, as stated, fails: an empty property name gives a column with an
    empty name, and two distinct property names that sanitize alike give
    two columns with one name in the same list. *)
Lemma column_names_empty_and_duplicated :
  init_bigquery_schema
    (PDict [("properties",
             PDict [(EmptyString, PDict [("type", PStr "string")]);
                    ("a-b", PDict [("type", PStr "string")]);
                    ("a_b", PDict [("type", PStr "string")])])])
  = Ok ([mkSchemaField EmptyString "string" "NULLABLE" [];
         mkSchemaField "a_b" "string" "NULLABLE" [];
         mkSchemaField "a_b" "string" "NULLABLE" []], false)
  /\ ~ NoDup ["a_b"; "a_b"].
Proof.
  split; [reflexivity |].
  intros H. inversion H as [| x l Hnin _]. apply Hnin. now left.
Qed.

Lemma named_from_eq name schema_property col :
  named_from name schema_property col
  = String.eqb (sf_name col) (safe_column_name name false)
    && match sf_fields col with
       | [] => true
       | fields =>
           match nested_source schema_property with
           | Some ps => all2 (fun f '(k, t) => named_from k t f) fields ps
           | None => false
           end
       end.
Proof. destruct col; reflexivity. Qed.

Lemma leaf_named_from name schema_property ty mode :
  named_from name schema_property
    (mkSchemaField (safe_column_name name false) ty mode []) = true.
Proof. rewrite named_from_eq. cbn [sf_name sf_fields]. now rewrite String.eqb_refl. Qed.

Lemma map_items_named ps :
  Forall (fun kv => forall name flag col flag',
            jsonschema_prop_to_bq_column name (snd kv) flag = Ok (col, flag') ->
            named_from name (snd kv) col = true) ps ->
  forall flag cols flag',
    map_items jsonschema_prop_to_bq_column ps flag = Ok (cols, flag') ->
    all2 (fun f '(k, t) => named_from k t f) cols ps = true.
Proof.
  induction 1 as [| [k t] tl Hhd _ IH]; intros flag cols flag'; cbn [map_items].
  - now intros [= <- _].
  - unfold bind at 1.
    destruct (jsonschema_prop_to_bq_column k t flag) as [[x flag1] |] eqn:Ex;
      [| discriminate].
    unfold bind at 1.
    destruct (map_items jsonschema_prop_to_bq_column tl flag1) as [[xs flag2] |] eqn:Exs;
      [| discriminate].
    intros [= <- _]. cbn [all2]. cbn [snd] in Hhd.
    rewrite (Hhd k flag x flag1 Ex). exact (IH _ _ _ Exs).
Qed.

Lemma names_follow_all : forall v, names_follow v.
Proof.
  induction v as [| b | z | s | l _ | d IH] using pyval_nested_ind;
    try (split; [| split];
         [ intros ? ? ? ? H; discriminate H
         | intros ? ? ? ? ? H; discriminate H
         | intros ? [=] ]).
  assert (Hmap : forall ps, PDict d = PDict ps ->
            forall flag cols flag',
              map_items jsonschema_prop_to_bq_column ps flag = Ok (cols, flag') ->
              all2 (fun f '(k, t) => named_from k t f) cols ps = true).
  { intros ps [= <-]. apply map_items_named.
    rewrite Forall_forall in IH |- *. intros kv Hin.
    destruct (IH _ Hin) as [Hnode _]. exact Hnode. }
  assert (Hrec : forall safe_name mode flag col flag',
             _translate_record_to_bq_schema safe_name (PDict d) mode flag = Ok (col, flag') ->
             sf_name col = safe_name
             /\ (sf_fields col = []
                 \/ exists d' ps,
                      PDict d = PDict d' /\ properties_of d' = Some ps
                      /\ all2 (fun f '(k, t) => named_from k t f) (sf_fields col) ps = true)).
  { intros safe_name mode flag col flag'. unfold _translate_record_to_bq_schema.
    rewrite translate_record_with_eq. unfold bind at 1.
    destruct (dict_get "properties" d) as [props |] eqn:Eprops.
    - destruct props as [| | | | | ps]; try discriminate.
      pose proof (dict_get_In _ _ _ Eprops) as Hin. rewrite Forall_forall in IH.
      destruct (IH _ Hin) as (_ & _ & Hmapping). simpl in Hmapping.
      destruct (map_items jsonschema_prop_to_bq_column ps flag) as [[fields flag1] |] eqn:Ef;
        [| discriminate].
      specialize (Hmapping ps eq_refl flag fields flag1 Ef).
      destruct fields as [| f fs]; intros [= <- _]; (split; [reflexivity |]).
      + now left.
      + right. exists d, ps. split; [reflexivity |]. split; [| exact Hmapping].
        unfold properties_of. now rewrite Eprops.
    - intros [= <- _]. split; [reflexivity | now left]. }
  split; [| split; [exact Hrec | exact Hmap]].
  intros name flag col flag'. rewrite jsonschema_prop_to_bq_column_eq. cbv zeta.
  unfold bind at 1, lift.
  destruct (py_in "array" (declared_type d)) as [is_array |] eqn:Harr; [| discriminate].
  destruct is_array.
  - destruct (dict_get "items" d) as [items |] eqn:Eitems.
    + pose proof (dict_get_In _ _ _ Eitems) as Hin. rewrite Forall_forall in IH.
      destruct (IH _ Hin) as (_ & Hitems_rec & _). simpl in Hitems_rec.
      destruct (ty <- getitem items "type" ;;
                fmt <- py_get items "format" PNone ;; bigquery_type ty fmt)%py
        as [items_type | e].
      * destruct (String.eqb items_type "record").
        -- intros Hcol. destruct (Hitems_rec _ _ _ _ _ Hcol) as [Hname Hfields].
           rewrite named_from_eq, Hname, String.eqb_refl. cbn [andb].
           destruct Hfields as [-> | (di & ps & -> & Hps & Hall)]; [reflexivity |].
           cbn [nested_source]. rewrite Harr, Eitems, Hps.
           now destruct (sf_fields col).
        -- intros [= <- _]. apply leaf_named_from.
      * destruct e; try discriminate. intros [= <- _]. apply leaf_named_from.
    + intros [= <- _]. apply leaf_named_from.
  - unfold bind at 1.
    destruct (py_in "object" (declared_type d)) as [is_object |]; [| discriminate].
    destruct is_object.
    + intros Hcol. destruct (Hrec _ _ _ _ _ Hcol) as [Hname Hfields].
      rewrite named_from_eq, Hname, String.eqb_refl. cbn [andb].
      destruct Hfields as [-> | (d' & ps & [= <-] & Hps & Hall)]; [reflexivity |].
      cbn [nested_source]. rewrite Harr, Hps.
      now destruct (sf_fields col).
    + unfold bind at 1.
      destruct (bigquery_type (declared_type d) (declared_format d)); [| discriminate].
      intros [= <- _]. apply leaf_named_from.
Qed.

(** C8, amended.  Every column that schema translation produces, at every
    nesting level and for every property name, is named after the property
    it is built from (a declared property of the stream, of an object
    property, or of an array property's items, matched one by one and in
    order): its name is that property's name without its backticks, every
    other character outside [A-Za-z0-9_] replaced by an underscore,
    lower-cased.  So every name is made only of characters of [a-z0-9_]
    and has the length of the property name without its backticks (empty
    when nothing else is left); names are not made unique. *)
Theorem column_names_sanitized (schema : pyval) (cols : list SchemaField) (flag : bool) :
  init_bigquery_schema schema = Ok (cols, flag) ->
  all2 (fun f '(k, t) => named_from k t f) cols (declared_properties schema) = true
  /\ forallb column_names_ok cols = true
  /\ map sf_name cols
     = map (fun '(name, _) => safe_column_name name false) (declared_properties schema)
  /\ forall name, String.length (safe_column_name name false)
                  = String.length (remove_backticks name).
Proof.
  unfold init_bigquery_schema, declared_properties.
  destruct (getitem schema "properties") as [props | e]; [| discriminate].
  destruct props as [| | | | | ps]; try discriminate.
  intros Hcols. split; [| split; [| split]].
  - destruct (names_follow_all (PDict ps)) as (_ & _ & Hmapping).
    exact (Hmapping ps eq_refl false cols flag Hcols).
  - destruct (names_ok_all (PDict ps)) as (_ & _ & Hmapping).
    exact (Hmapping ps eq_refl false cols flag Hcols).
  - exact (map_items_names ps false cols flag Hcols).
  - apply safe_column_name_length.
Qed.

Lemma column_names_sanitized_witness :
  let zip := PDict [("type", PStr "string")] in
  let ship := PDict [("type", PStr "object"); ("properties", PDict [("Zip`Code", zip)])] in
  let line := PDict [("type", PStr "array");
                     ("items", PDict [("type", PStr "object");
                                      ("properties", PDict [("SKU#", zip)])])] in
  let cols := [mkSchemaField "order_id" "integer" "NULLABLE" [];
               mkSchemaField "ship_to" "RECORD" "NULLABLE"
                 [mkSchemaField "zipcode" "string" "NULLABLE" []];
               mkSchemaField "lines" "RECORD" "REPEATED"
                 [mkSchemaField "sku_" "string" "NULLABLE" []]] in
  all2 (fun f '(k, t) => named_from k t f) cols
    [("Order ID", PDict [("type", PStr "integer")]); ("ship-to", ship); ("Lines", line)] = true
  /\ forallb column_names_ok cols = true.
Proof.
  intros zip ship line cols.
  destruct (column_names_sanitized
              (PDict [("properties",
                       PDict [("Order ID", PDict [("type", PStr "integer")]);
                              ("ship-to", ship); ("Lines", line)])])
              cols false eq_refl) as (Hnamed & Hchars & _).
  split; [exact Hnamed | exact Hchars].
Defined.

(** ** The coercion round trip (C7) *)

Lemma object_type_present (d : dict) :
  py_in "object" (declared_type d) = Ok true ->
  exists ty, dict_get "type" d = Some ty /\ py_in "object" ty = Ok true.
Proof.
  unfold declared_type, dict_get_default.
  destruct (dict_get "type" d) as [ty |]; [eauto | discriminate].
Qed.

(** C7. A property whose declared type includes object (and not array)
    and that declares no properties is translated to a nullable string
    column with the coercion flag set, and the record coercer replaces the
    value [{"a": 1}] of that field by its compact serialization, the
    string [{"a":1}]. *)
Theorem coercion_round_trip (name : string) (d : dict) (flag : bool) :
  py_in "array" (declared_type d) = Ok false ->
  py_in "object" (declared_type d) = Ok true ->
  dict_get "properties" d = None \/ dict_get "properties" d = Some (PDict []) ->
  jsonschema_prop_to_bq_column name (PDict d) flag
  = Ok (mkSchemaField (safe_column_name name false) "string" "NULLABLE" [], true)
  /\ _parse_json_with_props
       (PDict [(name, PDict [("a", PInt 1)])]) (PDict [(name, PDict d)])
     = Ok (PDict [(name, PStr json_a_1)])
  /\ orjson_dumps (PDict [("a", PInt 1)]) = Ok json_a_1.
Proof.
  intros Harr Hobj Hprops. split; [| split; [| reflexivity]].
  - rewrite jsonschema_prop_to_bq_column_eq. cbv zeta.
    unfold bind at 1, lift. rewrite Harr. unfold bind at 1. rewrite Hobj.
    now apply translate_record_no_properties.
  - destruct (object_type_present d Hobj) as (ty & Hty & Hin).
    assert (Hget : dict_get_default name [(name, PDict d)] PNone = PDict d).
    { unfold dict_get_default. simpl. now rewrite String.eqb_refl. }
    assert (Htruthy : truthy (PDict d) = true).
    { destruct d; [discriminate Hty | reflexivity]. }
    cbn [_parse_json_with_props traverse rbind py_get].
    rewrite Hget, Htruthy. cbn [getitem]. rewrite Hty. cbn [rbind].
    rewrite Hin. cbn [is_dict andb rbind]. unfold py_get, dict_get_default.
    destruct Hprops as [-> | ->]; reflexivity.
Qed.

Lemma coercion_round_trip_witness :
  jsonschema_prop_to_bq_column "payload" (PDict [("type", PStr "object")]) false
  = Ok (mkSchemaField "payload" "string" "NULLABLE" [], true)
  /\ _parse_json_with_props
       (PDict [("payload", PDict [("a", PInt 1)])])
       (PDict [("payload", PDict [("type", PStr "object")])])
     = Ok (PDict [("payload", PStr json_a_1)])
  /\ orjson_dumps (PDict [("a", PInt 1)]) = Ok json_a_1.
Proof.
  apply (coercion_round_trip "payload" [("type", PStr "object")] false);
    [reflexivity | reflexivity | now left].
Defined.

(** ** The coercer against the translation (C1) *)

(** C1 fails on the code.  Inside the items of an array the coercer looks
    the field names up in the items sub-schema itself, not in its
    properties, so it never finds them: with
    [arr: array of {x: object without properties}] translation makes [x] a
    string column and sets the flag, and the coercer leaves the value of
    [x] a mapping.  An array of scalars with a declared items sub-schema
    makes the coercer raise, since it treats each element as a mapping. *)
Theorem coercer_misses_fields_inside_arrays :
  let x_spec := PDict [("type", PStr "object")] in
  let items := PDict [("type", PStr "object"); ("properties", PDict [("x", x_spec)])] in
  let props := PDict [("arr", PDict [("type", PStr "array"); ("items", items)])] in
  let record := PDict [("arr", PList [PDict [("x", PDict [("a", PInt 1)])]])] in
  init_bigquery_schema (PDict [("properties", props)])
  = Ok ([mkSchemaField "arr" "RECORD" "REPEATED"
           [mkSchemaField "x" "string" "NULLABLE" []]], true)
  /\ _parse_json_with_props record props = Ok record
  /\ (let props' := PDict [("meta", PDict [("type", PStr "object")]);
                           ("tags", PDict [("type", PStr "array");
                                           ("items", PDict [("type", PStr "string")])])] in
      init_bigquery_schema (PDict [("properties", props')])
      = Ok ([mkSchemaField "meta" "string" "NULLABLE" [];
             mkSchemaField "tags" "string" "REPEATED" []], true)
      /\ _parse_json_with_props
           (PDict [("meta", PDict []); ("tags", PList [PStr "red"])]) props'
         = Raise AttributeError).
Proof. repeat split. Qed.

(** ** Additive schema evolution (C3) *)

Lemma fields_to_add_loop field_eq live desired : forall acc,
  fold_left
    (fun fields_to_add field =>
       if negb (existsb (fun l => field_eq field l) live)
       then fields_to_add ++ [field]
       else fields_to_add)
    desired acc
  = acc ++ missing_fields field_eq live desired.
Proof.
  induction desired as [| f tl IH]; intros acc; simpl.
  - now rewrite app_nil_r.
  - rewrite IH. destruct (negb (existsb (fun l => field_eq f l) live)); simpl;
      [now rewrite <- app_assoc | reflexivity].
Qed.

Lemma start_batch_live field_eq desired live updates :
  start_batch field_eq desired (mkWarehouse (Some live) updates)
  = match missing_fields field_eq live desired with
    | [] => mkWarehouse (Some live) updates
    | added => mkWarehouse (Some (live ++ added)) (updates ++ [live ++ added])
    end.
Proof.
  unfold start_batch, create_table. cbn [wh_table].
  rewrite fields_to_add_loop. cbn [app].
  destruct (missing_fields field_eq live desired); reflexivity.
Qed.

(** C3, as stated, fails: the diff is not by name.  With the client
    library's equality of column definitions, a desired column [a] of type
    integer, whose name is live with type string, is appended: the table
    ends with two columns named [a]. *)
Lemma start_batch_appends_live_name :
  let live := [mkSchemaField "a" "STRING" "NULLABLE" []] in
  let desired := [mkSchemaField "a" "integer" "NULLABLE" []] in
  start_batch SchemaField_eqb desired (mkWarehouse (Some live) [])
  = mkWarehouse
      (Some [mkSchemaField "a" "STRING" "NULLABLE" [];
             mkSchemaField "a" "integer" "NULLABLE" []])
      [[mkSchemaField "a" "STRING" "NULLABLE" [];
        mkSchemaField "a" "integer" "NULLABLE" []]].
Proof. reflexivity. Qed.

(** C3, amended.  When the table exists, provisioning compares each
    desired column with the live columns by the equality of column
    definitions (not by name alone) and appends, in order, exactly the
    desired columns equal to no live column; the live columns stay as
    they are, first and in their order; the new schema is sent in one
    update call, and no call is made when nothing is missing.  For live
    columns [a, b] and desired columns [a, b, c], with [a] and [b] equal
    to themselves and [c] equal to neither, the result is [a, b, c]. *)
Theorem start_batch_additive
    (field_eq : SchemaField -> SchemaField -> bool)
    (a b c : SchemaField) (desired live : list SchemaField)
    (updates : list (list SchemaField)) :
  field_eq a a = true ->
  field_eq b b = true ->
  field_eq c a = false ->
  field_eq c b = false ->
  let added := missing_fields field_eq live desired in
  let w' := start_batch field_eq desired (mkWarehouse (Some live) updates) in
  wh_table w' = Some (live ++ added)
  /\ wh_updates w' = updates ++ match added with
                                | [] => []
                                | _ => [live ++ added]
                                end
  /\ start_batch field_eq [a; b; c] (mkWarehouse (Some [a; b]) updates)
     = mkWarehouse (Some [a; b; c]) (updates ++ [[a; b; c]]).
Proof.
  intros Ha Hb Hca Hcb added w'. subst added w'.
  rewrite !start_batch_live.
  split; [| split].
  - destruct (missing_fields field_eq live desired); cbn [wh_table];
      [now rewrite app_nil_r | reflexivity].
  - destruct (missing_fields field_eq live desired); cbn [wh_updates];
      [now rewrite app_nil_r | reflexivity].
  - unfold missing_fields. cbn [filter existsb].
    rewrite Ha, Hb, Hca, Hcb. rewrite orb_true_r. reflexivity.
Qed.

Lemma start_batch_additive_witness :
  let a := mkSchemaField "a" "STRING" "NULLABLE" [] in
  let b := mkSchemaField "b" "INTEGER" "NULLABLE" [] in
  let c := mkSchemaField "c" "timestamp" "NULLABLE" [] in
  start_batch SchemaField_eqb [a; b; c] (mkWarehouse (Some [a; b]) [])
  = mkWarehouse (Some [a; b; c]) [[a; b; c]].
Proof.
  intros a b c.
  destruct (start_batch_additive SchemaField_eqb a b c [a; b; c] [a; b] []
              eq_refl eq_refl eq_refl eq_refl) as (_ & _ & H).
  exact H.
Defined.

(** ** Record metadata (C4) *)

(** C4 fails on the code.  The assignment of [_sdc_batched_at] stands
    outside the test of [add_record_metadata]: with the option disabled,
    the record [{"id": 1}] comes back with [_sdc_batched_at] added (here
    from the clock, the context giving no batch start time). *)
Theorem batched_at_added_when_metadata_disabled :
  preprocess_record (fun t : string => t)
    (mkSink false (PDict [("properties", PDict [("id", PDict [("type", PStr "integer")])])])
       false)
    (mkClock "2024-01-01T00:00:01" "2024-01-01T00:00:02" "2024-01-01T00:00:03")
    [("id", PInt 1)]
    (mkContext None)
  = Ok (PDict [("id", PInt 1); ("_sdc_batched_at", PStr "2024-01-01T00:00:03")]).
Proof. reflexivity. Qed.

(** With the option enabled the two other columns are set only where the
    record lacks them, and [_sdc_batched_at] is set from the batch start
    time when the context has one. *)
Example preprocess_record_enabled :
  preprocess_record (fun t : string => t)
    (mkSink true (PDict [("properties", PDict [])]) false)
    (mkClock "t1" "t2" "t3")
    [("id", PInt 1); ("_sdc_received_at", PStr "earlier")]
    (mkContext (Some "t0"))
  = Ok (PDict [("id", PInt 1); ("_sdc_received_at", PStr "earlier");
               ("_sdc_extracted_at", PStr "t1"); ("_sdc_batched_at", PStr "t0")]).
Proof. reflexivity. Qed.

(** ** Streaming delivery with row errors (C9) *)

(** C9. When the batch holds records and the insert call answers with a
    non-empty list of row errors, [process_batch] returns normally: the
    insert was called once, on the buffered records, the errors were
    logged, the drain is closed and the record buffer is empty. *)
Theorem streaming_row_errors_swallowed
    (insert_rows_json : list pyval -> list pyval) (s : StreamingSink)
    (errors : list pyval) :
  current_size s <> 0 ->
  insert_rows_json (records_to_drain s) = errors ->
  errors <> [] ->
  let s' := process_batch insert_rows_json s in
  records_to_drain s' = []
  /\ current_size s' = 0
  /\ draining s' = false
  /\ trace s' = trace s ++ [InsertRowsJson (records_to_drain s); LogInsertErrors errors].
Proof.
  intros Hsize Hins Hne s'. subst s'. unfold process_batch.
  destruct (Nat.eqb_spec (current_size s) 0) as [E | _]; [contradiction |].
  cbn [start_drain records_to_drain]. rewrite Hins.
  destruct errors as [| e es]; [contradiction |].
  cbn. rewrite <- app_assoc. repeat split.
Qed.

Lemma streaming_row_errors_swallowed_witness :
  let row_error := PDict [("index", PInt 2); ("reason", PStr "type_mismatch")] in
  let rows := [PDict [("id", PInt 1)]; PDict [("id", PInt 2)]; PDict [("id", PStr "x")]] in
  let s' := process_batch (fun _ => [row_error]) (mkStreamingSink rows 3 false []) in
  records_to_drain s' = []
  /\ current_size s' = 0
  /\ draining s' = false
  /\ trace s' = [InsertRowsJson rows; LogInsertErrors [row_error]].
Proof.
  intros row_error rows.
  apply (streaming_row_errors_swallowed (fun _ => [row_error])
           (mkStreamingSink rows 3 false []) [row_error]);
    [discriminate | reflexivity | discriminate].
Defined.

(** ** Array properties (C2) *)

Lemma bigquery_type_raises ty fmt e :
  bigquery_type ty fmt = Raise e -> e = TypeError.
Proof.
  destruct (is_container ty) eqn:Hc.
  - destruct (bigquery_type_container ty fmt Hc) as [t ->]. discriminate.
  - unfold bigquery_type.
    destruct (py_eq_str fmt "date-time"); [discriminate |].
    destruct (py_eq_str fmt "date"); [discriminate |].
    destruct (py_eq_str fmt "time"); [discriminate |].
    destruct ty; try discriminate Hc; cbn; now intros [= <-].
Qed.

Lemma map_items_length {A} (f : string -> pyval -> M A) (ps : dict) :
  forall flag xs flag',
    map_items f ps flag = Ok (xs, flag') -> length xs = length ps.
Proof.
  induction ps as [| [k t] tl IH]; intros flag xs flag'; cbn [map_items].
  - now intros [= <- _].
  - unfold bind at 1. destruct (f k t flag) as [[x flag1] |]; [| discriminate].
    unfold bind at 1. destruct (map_items f tl flag1) as [[xs' flag2] |] eqn:E;
      [| discriminate].
    intros [= <- _]. cbn. f_equal. exact (IH _ _ _ E).
Qed.

(** C2, as stated, fails.  The property [{"type": "array", "items":
    {"type": "object"}}] has an items sub-schema whose resolved type is
    record, yet the column is a REPEATED string column and the flag is
    set; the property [{"type": "array", "items": {"format": "date"}}] has
    an items sub-schema too, and is coerced to a NULLABLE string column;
    and with a tuple-form items (a list of schemas) no column is emitted
    at all: translation raises [TypeError]. *)
Lemma array_coerced_with_items_present :
  let items1 := PDict [("type", PStr "object")] in
  let p1 := [("type", PStr "array"); ("items", items1)] in
  let items2 := PDict [("format", PStr "date")] in
  let p2 := [("type", PStr "array"); ("items", items2)] in
  let items3 := PList [PDict [("type", PStr "string")]] in
  let p3 := [("type", PStr "array"); ("items", items3)] in
  (py_in "array" (declared_type p1) = Ok true
   /\ dict_get "items" p1 = Some items1
   /\ bigquery_type (PStr "object") PNone = Ok "record"
   /\ jsonschema_prop_to_bq_column "tags" (PDict p1) false
      = Ok (mkSchemaField "tags" "string" "REPEATED" [], true))
  /\ (py_in "array" (declared_type p2) = Ok true
      /\ dict_get "items" p2 = Some items2
      /\ jsonschema_prop_to_bq_column "tags" (PDict p2) false
         = Ok (mkSchemaField "tags" "string" "NULLABLE" [], true))
  /\ (py_in "array" (declared_type p3) = Ok true
      /\ dict_get "items" p3 = Some items3
      /\ jsonschema_prop_to_bq_column "tags" (PDict p3) false = Raise TypeError).
Proof. repeat split. Qed.

(** C2, amended.  For a property whose declared type includes array, one
    of the following holds, and they cover every case.  With no items
    sub-schema, or with an items mapping that carries no type, the column
    is a NULLABLE string column and the flag is set.  With items that are
    not a mapping, or whose type [bigquery_type] cannot map, translation
    raises [TypeError].  With items whose resolved type is record, the
    items' properties are translated: when the items declare no properties
    (none, or an empty mapping) the column is a REPEATED string column and
    the flag is set; when their properties are not a mapping translation
    raises [AttributeError]; when a property among them raises, so does
    translation; otherwise the column is a REPEATED record column holding
    their columns, at least one.  With items of any other resolved type,
    the column is a REPEATED column of that type and the flag is left as
    it was. *)
Theorem array_property_translation (name : string) (d : dict) (flag : bool) :
  py_in "array" (declared_type d) = Ok true ->
  let safe_name := safe_column_name name false in
  let column := jsonschema_prop_to_bq_column name (PDict d) flag in
  (dict_get "items" d = None ->
   column = Ok (mkSchemaField safe_name "string" "NULLABLE" [], true))
  /\ (forall items,
        dict_get "items" d = Some items ->
        is_dict items = false ->
        column = Raise TypeError)
  /\ (forall di,
        dict_get "items" d = Some (PDict di) ->
        dict_get "type" di = None ->
        column = Ok (mkSchemaField safe_name "string" "NULLABLE" [], true))
  /\ (forall di ty e,
        dict_get "items" d = Some (PDict di) ->
        dict_get "type" di = Some ty ->
        bigquery_type ty (declared_format di) = Raise e ->
        column = Raise TypeError)
  /\ (forall di ty,
        dict_get "items" d = Some (PDict di) ->
        dict_get "type" di = Some ty ->
        bigquery_type ty (declared_format di) = Ok "record" ->
        (dict_get "properties" di = None
         \/ dict_get "properties" di = Some (PDict []) ->
         column = Ok (mkSchemaField safe_name "string" "REPEATED" [], true))
        /\ (forall props,
              dict_get "properties" di = Some props ->
              is_dict props = false ->
              column = Raise AttributeError)
        /\ (forall ps e,
              dict_get "properties" di = Some (PDict ps) ->
              map_items jsonschema_prop_to_bq_column ps flag = Raise e ->
              column = Raise e)
        /\ (forall ps fields flag',
              dict_get "properties" di = Some (PDict ps) ->
              ps <> [] ->
              map_items jsonschema_prop_to_bq_column ps flag = Ok (fields, flag') ->
              fields <> []
              /\ column = Ok (mkSchemaField safe_name "RECORD" "REPEATED" fields, flag')))
  /\ (forall di ty items_type,
        dict_get "items" d = Some (PDict di) ->
        dict_get "type" di = Some ty ->
        bigquery_type ty (declared_format di) = Ok items_type ->
        items_type <> "record" ->
        column = Ok (mkSchemaField safe_name items_type "REPEATED" [], flag)).
Proof.
  intros Harr safe_name column. subst column safe_name.
  assert (Hhead : forall items,
            dict_get "items" d = Some items ->
            jsonschema_prop_to_bq_column name (PDict d) flag
            = match (ty <- getitem items "type" ;;
                     fmt <- py_get items "format" PNone ;; bigquery_type ty fmt)%py with
              | Raise KeyError => coerced_column (safe_column_name name false)
              | Raise e => raise e
              | Ok items_type =>
                  if String.eqb items_type "record" then
                    _translate_record_to_bq_schema (safe_column_name name false)
                      items "REPEATED"
                  else ret (mkSchemaField (safe_column_name name false)
                              items_type "REPEATED" [])
              end flag).
  { intros items Hitems. rewrite jsonschema_prop_to_bq_column_eq. cbv zeta.
    unfold bind at 1, lift. now rewrite Harr, Hitems. }
  split; [| split; [| split; [| split; [| split]]]].
  - intros Hitems. rewrite jsonschema_prop_to_bq_column_eq. cbv zeta.
    unfold bind at 1, lift. now rewrite Harr, Hitems.
  - intros items Hitems Hnd. rewrite (Hhead _ Hitems).
    destruct items; try discriminate Hnd; reflexivity.
  - intros di Hitems Hty. rewrite (Hhead _ Hitems).
    unfold getitem, rbind. now rewrite Hty.
  - intros di ty e Hitems Hty Hbq. rewrite (Hhead _ Hitems).
    unfold getitem, py_get, rbind. rewrite Hty. fold (declared_format di).
    rewrite Hbq. now rewrite (bigquery_type_raises _ _ _ Hbq).
  - intros di ty Hitems Hty Hbq.
    assert (Hrec : jsonschema_prop_to_bq_column name (PDict d) flag
                   = _translate_record_to_bq_schema (safe_column_name name false)
                       (PDict di) "REPEATED" flag).
    { now rewrite (array_items_typed name d di ty "record" flag). }
    rewrite Hrec. unfold _translate_record_to_bq_schema.
    rewrite translate_record_with_eq.
    split; [| split; [| split]].
    + intros [-> | ->]; reflexivity.
    + intros props -> Hnd. destruct props; try discriminate Hnd; reflexivity.
    + intros ps e -> Hmap. unfold bind at 1. now rewrite Hmap.
    + intros ps fields flag' -> Hne Hmap. unfold bind at 1. rewrite Hmap.
      pose proof (map_items_length _ _ _ _ _ Hmap) as Hlen.
      destruct fields as [| f fs].
      * destruct ps; [contradiction | discriminate Hlen].
      * split; [discriminate | reflexivity].
  - intros di ty items_type Hitems Hty Hbq Hne.
    rewrite (array_items_typed name d di ty items_type flag) by assumption.
    destruct (String.eqb_spec items_type "record"); [contradiction | reflexivity].
Qed.

Lemma array_property_translation_witness :
  jsonschema_prop_to_bq_column "tags" (PDict [("type", PStr "array")]) false
  = Ok (mkSchemaField "tags" "string" "NULLABLE" [], true)
  /\ jsonschema_prop_to_bq_column "tags"
       (PDict [("type", PStr "array"); ("items", PBool true)]) false
     = Raise TypeError
  /\ jsonschema_prop_to_bq_column "tags"
       (PDict [("type", PStr "array"); ("items", PDict [("format", PStr "date")])]) false
     = Ok (mkSchemaField "tags" "string" "NULLABLE" [], true)
  /\ jsonschema_prop_to_bq_column "tags"
       (PDict [("type", PStr "array"); ("items", PDict [("type", PNone)])]) false
     = Raise TypeError
  /\ jsonschema_prop_to_bq_column "tags"
       (PDict [("type", PStr "array");
               ("items", PDict [("type", PStr "object");
                                ("properties", PDict [("x", PDict [("type", PStr "string")])])])])
       false
     = Ok (mkSchemaField "tags" "RECORD" "REPEATED"
             [mkSchemaField "x" "string" "NULLABLE" []], false)
  /\ jsonschema_prop_to_bq_column "tags"
       (PDict [("type", PStr "array"); ("items", PDict [("type", PStr "object")])]) false
     = Ok (mkSchemaField "tags" "string" "REPEATED" [], true)
  /\ jsonschema_prop_to_bq_column "tags"
       (PDict [("type", PStr "array");
               ("items", PDict [("type", PStr "object"); ("properties", PNone)])]) false
     = Raise AttributeError
  /\ jsonschema_prop_to_bq_column "tags"
       (PDict [("type", PStr "array");
               ("items", PDict [("type", PStr "object");
                                ("properties", PDict [("x", PBool true)])])]) false
     = Raise AttributeError
  /\ jsonschema_prop_to_bq_column "tags"
       (PDict [("type", PStr "array"); ("items", PDict [("type", PStr "integer")])]) false
     = Ok (mkSchemaField "tags" "integer" "REPEATED" [], false).
Proof.
  repeat apply conj.
  - destruct (array_property_translation "tags" [("type", PStr "array")] false eq_refl)
      as (H & _).
    exact (H eq_refl).
  - destruct (array_property_translation "tags"
                [("type", PStr "array"); ("items", PBool true)] false eq_refl)
      as (_ & H & _).
    exact (H _ eq_refl eq_refl).
  - destruct (array_property_translation "tags"
                [("type", PStr "array"); ("items", PDict [("format", PStr "date")])]
                false eq_refl) as (_ & _ & H & _).
    exact (H _ eq_refl eq_refl).
  - destruct (array_property_translation "tags"
                [("type", PStr "array"); ("items", PDict [("type", PNone)])]
                false eq_refl) as (_ & _ & _ & H & _).
    exact (H _ PNone TypeError eq_refl eq_refl eq_refl).
  - destruct (array_property_translation "tags"
                [("type", PStr "array");
                 ("items", PDict [("type", PStr "object");
                                  ("properties", PDict [("x", PDict [("type", PStr "string")])])])]
                false eq_refl) as (_ & _ & _ & _ & H & _).
    destruct (H _ _ eq_refl eq_refl eq_refl) as (_ & _ & _ & H').
    destruct (H' [("x", PDict [("type", PStr "string")])]
                 [mkSchemaField "x" "string" "NULLABLE" []] false eq_refl)
      as [_ Hcol]; [discriminate | reflexivity | exact Hcol].
  - destruct (array_property_translation "tags"
                [("type", PStr "array"); ("items", PDict [("type", PStr "object")])]
                false eq_refl) as (_ & _ & _ & _ & H & _).
    destruct (H _ _ eq_refl eq_refl eq_refl) as (H' & _).
    apply H'. now left.
  - destruct (array_property_translation "tags"
                [("type", PStr "array");
                 ("items", PDict [("type", PStr "object"); ("properties", PNone)])]
                false eq_refl) as (_ & _ & _ & _ & H & _).
    destruct (H _ _ eq_refl eq_refl eq_refl) as (_ & H' & _).
    exact (H' PNone eq_refl eq_refl).
  - destruct (array_property_translation "tags"
                [("type", PStr "array");
                 ("items", PDict [("type", PStr "object");
                                  ("properties", PDict [("x", PBool true)])])]
                false eq_refl) as (_ & _ & _ & _ & H & _).
    destruct (H _ _ eq_refl eq_refl eq_refl) as (_ & _ & H' & _).
    exact (H' [("x", PBool true)] AttributeError eq_refl eq_refl).
  - destruct (array_property_translation "tags"
                [("type", PStr "array"); ("items", PDict [("type", PStr "integer")])]
                false eq_refl) as (_ & _ & _ & _ & _ & H).
    apply (H _ _ "integer" eq_refl eq_refl eq_refl). discriminate.
Defined.

(** * Further properties of the code *)

(** ** [safe_column_name] *)

Lemma str_map_app (f : ascii -> ascii) (s t : string) :
  str_map f (s ++ t)%string = (str_map f s ++ str_map f t)%string.
Proof. induction s as [| c s IH]; simpl; [reflexivity | now rewrite IH]. Qed.

Lemma safe_char_fixed (c : ascii) :
  is_lower_word_char c = true ->
  negb (Ascii.eqb c "`"%char) = true
  /\ char_lower (if is_word_char c then c else "_"%char) = c.
Proof.
  destruct c as [[] [] [] [] [] [] [] []]; vm_compute; intros H;
    first [discriminate H | split; reflexivity].
Qed.

Lemma safe_name_fixed (name : string) :
  name_chars_ok name = true ->
  safe_column_name name false = name.
Proof.
  unfold safe_column_name, name_chars_ok, str_lower, sub_non_word, remove_backticks.
  induction name as [| c s IH]; simpl; [reflexivity |].
  intros H. apply andb_prop in H as [Hc Hs].
  destruct (safe_char_fixed c Hc) as [Hbt Hfix].
  rewrite Hbt. simpl. now rewrite Hfix, IH.
Qed.

(** X1. A name made only of characters of [a-z0-9_] is its own safe
    column name. *)
Theorem safe_column_name_fixes_safe_names (name : string) :
  name_chars_ok name = true ->
  safe_column_name name false = name.
Proof. apply safe_name_fixed. Qed.

Lemma safe_column_name_fixes_safe_names_witness :
  safe_column_name "order_id_2" false = "order_id_2".
Proof. apply safe_column_name_fixes_safe_names. reflexivity. Defined.

(** X2. Sanitizing is idempotent: the safe name of a safe name is that
    name. *)
Theorem safe_column_name_idempotent (name : string) :
  safe_column_name (safe_column_name name false) false = safe_column_name name false.
Proof. apply safe_name_fixed, safe_column_name_chars. Qed.

(** X3. With [quotes] set, the result is the unquoted safe name between
    two backticks, and the part between them holds no backtick. *)
Theorem safe_column_name_quoted (name : string) :
  safe_column_name name true
  = ("`" ++ safe_column_name name false ++ "`")%string
  /\ remove_backticks (safe_column_name name false) = safe_column_name name false.
Proof.
  split.
  - unfold safe_column_name, str_lower. cbn [append str_map].
    now rewrite str_map_app.
  - generalize (safe_column_name_chars name).
    generalize (safe_column_name name false) as s.
    unfold name_chars_ok, remove_backticks.
    induction s as [| c s IH]; simpl; [reflexivity |].
    intros H. apply andb_prop in H as [Hc Hs].
    destruct (safe_char_fixed c Hc) as [-> _]. now rewrite IH.
Qed.

(** ** [bigquery_type] on any value *)

Lemma py_in_not_container (s : string) (v : pyval) :
  is_container v = false -> py_in s v = Raise TypeError.
Proof. destruct v; simpl; try discriminate; reflexivity. Qed.

Lemma bigquery_type_cases (property_type property_format : pyval) :
  match bigquery_type property_type property_format with
  | Ok t =>
      date_format property_format || is_container property_type = true
      /\ In t mapped_types
      /\ (t <> "record" \/ py_in "object" property_type = Ok true)
  | Raise e =>
      e = TypeError
      /\ date_format property_format = false
      /\ is_container property_type = false
  end.
Proof.
  unfold bigquery_type, date_format, mapped_types.
  destruct (py_eq_str property_format "date-time");
    [cbn; repeat split; auto; left; discriminate |].
  destruct (py_eq_str property_format "date");
    [cbn; repeat split; auto; left; discriminate |].
  destruct (py_eq_str property_format "time");
    [cbn; repeat split; auto 10; left; discriminate |].
  destruct (is_container property_type) eqn:Hc.
  - destruct (py_in_container "number" _ Hc) as [b1 ->].
    destruct (py_in_container "integer" _ Hc) as [b2 ->].
    destruct (py_in_container "string" _ Hc) as [b3 ->].
    destruct (py_in_container "boolean" _ Hc) as [b4 ->].
    destruct (py_in_container "object" _ Hc) as [b5 ->].
    destruct b1, b2, b3, b4, b5; cbn; repeat split; auto 10;
      first [right; reflexivity | left; discriminate].
  - rewrite (py_in_not_container "number" _ Hc). cbn. auto.
Qed.

(** X4. [bigquery_type] raises exactly when the format is none of the
    three date and time formats and the declared type is not a string,
    list or mapping, and then it raises [TypeError]; otherwise it returns
    one of the eight type names, and [record] only for a type that
    includes object. *)
Theorem bigquery_type_outcomes (property_type property_format : pyval) :
  match bigquery_type property_type property_format with
  | Ok t =>
      date_format property_format || is_container property_type = true
      /\ In t mapped_types
      /\ (t <> "record" \/ py_in "object" property_type = Ok true)
  | Raise e =>
      e = TypeError
      /\ date_format property_format = false
      /\ is_container property_type = false
  end.
Proof. apply bigquery_type_cases. Qed.

(** ** The coercion flag *)

Lemma flag_law_ret {A} (a : A) : flag_law (ret a).
Proof. intros flag. cbn. now rewrite orb_false_r. Qed.

Lemma flag_law_raise {A} (e : exn) : flag_law (@raise A e).
Proof. intros flag. reflexivity. Qed.

Lemma flag_law_lift {A} (r : result A) : flag_law (lift r).
Proof. intros flag. destruct r; cbn; [now rewrite orb_false_r | reflexivity]. Qed.

Lemma flag_law_set_coerced : flag_law set_coerced.
Proof. intros flag. cbn. now rewrite orb_true_r. Qed.

Lemma flag_law_bind {A B} (m : M A) (k : A -> M B) :
  flag_law m -> (forall a, flag_law (k a)) -> flag_law (bind m k).
Proof.
  intros Hm Hk flag. unfold bind. rewrite (Hm flag).
  destruct (m false) as [[a f] | e]; [| reflexivity].
  rewrite (Hk a (flag || f)), (Hk a f).
  destruct (k a false) as [[b g] | e]; [| reflexivity].
  now rewrite orb_assoc.
Qed.

Lemma flag_law_coerced_column safe_name : flag_law (coerced_column safe_name).
Proof.
  apply flag_law_bind; [apply flag_law_set_coerced | intros; apply flag_law_ret].
Qed.

Lemma flag_law_map_items {A} (f : string -> pyval -> M A) (ps : dict) :
  Forall (fun kv => forall name, flag_law (f name (snd kv))) ps ->
  flag_law (map_items f ps).
Proof.
  induction 1 as [| [k t] tl Hhd _ IH]; cbn [map_items].
  - apply flag_law_ret.
  - apply flag_law_bind; [apply Hhd |]. intros x.
    apply flag_law_bind; [exact IH |]. intros xs. apply flag_law_ret.
Qed.

Lemma flag_law_all : forall v, flag_law_from v.
Proof.
  induction v as [| b | z | s | l _ | d IH] using pyval_nested_ind;
    try (split; [| split];
         [ intros ?; apply flag_law_raise
         | intros ? ?; apply flag_law_raise
         | intros ? [=] ]).
  assert (Hmap : forall ps, PDict d = PDict ps ->
            flag_law (map_items jsonschema_prop_to_bq_column ps)).
  { intros ps [= <-]. apply flag_law_map_items.
    rewrite Forall_forall in IH |- *. intros kv Hin name.
    destruct (IH _ Hin) as [Hnode _]. apply Hnode. }
  assert (Hrec : forall safe_name mode,
             flag_law (_translate_record_to_bq_schema safe_name (PDict d) mode)).
  { intros safe_name mode. unfold _translate_record_to_bq_schema.
    rewrite translate_record_with_eq. apply flag_law_bind.
    - destruct (dict_get "properties" d) as [props |] eqn:Eprops;
        [| apply flag_law_ret].
      destruct props as [| | | | | ps]; try apply flag_law_raise.
      apply dict_get_In in Eprops. rewrite Forall_forall in IH.
      destruct (IH _ Eprops) as (_ & _ & Hmapping). now apply Hmapping.
    - intros [| f fs]; [| apply flag_law_ret].
      apply flag_law_bind; [apply flag_law_set_coerced | intros; apply flag_law_ret]. }
  split; [| split; [exact Hrec | exact Hmap]].
  intros name. rewrite jsonschema_prop_to_bq_column_eq. cbv zeta.
  apply flag_law_bind; [apply flag_law_lift |]. intros [|].
  - destruct (dict_get "items" d) as [items |] eqn:Eitems;
      [| apply flag_law_coerced_column].
    apply dict_get_In in Eitems. rewrite Forall_forall in IH.
    destruct (IH _ Eitems) as (_ & Hitems_rec & _).
    destruct (ty <- getitem items "type" ;;
              fmt <- py_get items "format" PNone ;; bigquery_type ty fmt)%py
      as [items_type | e].
    + destruct (String.eqb items_type "record");
        [apply Hitems_rec | apply flag_law_ret].
    + destruct e; first [apply flag_law_coerced_column | apply flag_law_raise].
  - apply flag_law_bind; [apply flag_law_lift |]. intros [|]; [apply Hrec |].
    apply flag_law_bind; [apply flag_law_lift |]. intros t. apply flag_law_ret.
Qed.

(** X5. Translation only ever raises the coercion flag, and the column
    it builds does not depend on the flag it starts from: run from any
    flag, translating a property gives the column it gives from a lowered
    flag, and the final flag is the incoming one or-ed with that run's. *)
Theorem coercion_flag_sticky (name : string) (schema_property : pyval) (flag : bool) :
  jsonschema_prop_to_bq_column name schema_property flag
  = match jsonschema_prop_to_bq_column name schema_property false with
    | Ok (col, f) => Ok (col, flag || f)
    | Raise e => Raise e
    end.
Proof. destruct (flag_law_all schema_property) as [H _]. apply H. Qed.

(** ** The shape of the columns *)

Lemma scalar_column_wf safe_name t mode :
  In t scalar_types ->
  String.eqb mode "NULLABLE" || String.eqb mode "REPEATED" = true ->
  column_wf (mkSchemaField safe_name t mode []) = true.
Proof.
  intros Hin Hmode. cbn [column_wf sf_type sf_mode sf_fields forallb].
  rewrite Hmode.
  cbn in Hin. decompose [or] Hin; subst; try contradiction; reflexivity.
Qed.

Lemma bigquery_type_scalar ty fmt t :
  bigquery_type ty fmt = Ok t ->
  t <> "record" ->
  In t scalar_types.
Proof.
  intros H Hne. pose proof (bigquery_type_cases ty fmt) as Hout.
  rewrite H in Hout. destruct Hout as (_ & Hin & _).
  cbn in Hin |- *. decompose [or] Hin; subst; auto 10; contradiction.
Qed.

Lemma bigquery_type_not_object ty fmt t :
  bigquery_type ty fmt = Ok t ->
  py_in "object" ty = Ok false ->
  t <> "record".
Proof.
  intros H Hobj. pose proof (bigquery_type_cases ty fmt) as Hout.
  rewrite H in Hout. destruct Hout as (_ & _ & [Hne | Hin]); [exact Hne |].
  rewrite Hobj in Hin. discriminate.
Qed.

Lemma columns_wf_all : forall v, columns_wf_from v.
Proof.
  induction v as [| b | z | s | l _ | d IH] using pyval_nested_ind;
    try (repeat split;
         [ intros ? ? ? ? H; discriminate H
         | intros ? ? ? ? ? _ H; discriminate H
         | intros ? [=] ]).
  assert (Hmap : forall ps, PDict d = PDict ps ->
            forall flag cols flag',
              map_items jsonschema_prop_to_bq_column ps flag = Ok (cols, flag') ->
              forallb column_wf cols = true).
  { intros ps [= <-] flag cols flag' Hcols. apply forallb_forall.
    apply Forall_forall.
    apply (map_items_forall (fun c => column_wf c = true)
             jsonschema_prop_to_bq_column d) with (flag := flag) (flag' := flag');
      [| exact Hcols].
    rewrite Forall_forall in IH |- *. intros kv Hin name fl x fl' Hx.
    destruct (IH _ Hin) as [Hnode _]. now apply (Hnode name fl x fl'). }
  assert (Hrec : forall safe_name mode flag col flag',
             String.eqb mode "NULLABLE" || String.eqb mode "REPEATED" = true ->
             _translate_record_to_bq_schema safe_name (PDict d) mode flag = Ok (col, flag') ->
             column_wf col = true).
  { intros safe_name mode flag col flag' Hmode. unfold _translate_record_to_bq_schema.
    rewrite translate_record_with_eq. unfold bind at 1.
    destruct (dict_get "properties" d) as [props |] eqn:Eprops.
    - destruct props as [| | | | | ps]; try discriminate.
      apply dict_get_In in Eprops. rewrite Forall_forall in IH.
      destruct (IH _ Eprops) as (_ & _ & Hmapping). simpl in Hmapping.
      destruct (map_items jsonschema_prop_to_bq_column ps flag) as [[fields flag1] |] eqn:Ef;
        [| discriminate].
      specialize (Hmapping ps eq_refl flag fields flag1 Ef).
      destruct fields as [| f fs].
      + intros [= <- _]. apply scalar_column_wf; [cbn; auto 10 | exact Hmode].
      + intros [= <- _]. cbn [column_wf sf_type sf_mode sf_fields].
        rewrite Hmode, Hmapping. reflexivity.
    - intros [= <- _]. apply scalar_column_wf; [cbn; auto 10 | exact Hmode]. }
  repeat split; [| exact Hrec | exact Hmap].
  intros name flag col flag'. rewrite jsonschema_prop_to_bq_column_eq. cbv zeta.
  unfold bind at 1, lift.
  destruct (py_in "array" (declared_type d)) as [is_array |]; [| discriminate].
  destruct is_array.
  - destruct (dict_get "items" d) as [items |] eqn:Eitems.
    + apply dict_get_In in Eitems. rewrite Forall_forall in IH.
      destruct (IH _ Eitems) as (_ & Hitems_rec & _). simpl in Hitems_rec.
      destruct (ty <- getitem items "type" ;;
                fmt <- py_get items "format" PNone ;; bigquery_type ty fmt)%py
        as [items_type | e] eqn:Etry.
      * destruct (String.eqb_spec items_type "record") as [-> | Hne].
        -- apply Hitems_rec. reflexivity.
        -- intros [= <- _]. apply scalar_column_wf; [| reflexivity].
           unfold rbind in Etry.
           destruct (getitem items "type") as [ty |]; [| discriminate].
           destruct (py_get items "format" PNone) as [fmt |]; [| discriminate].
           now apply (bigquery_type_scalar ty fmt).
      * destruct e; try discriminate. intros [= <- _].
        apply scalar_column_wf; [cbn; auto 10 | reflexivity].
    + intros [= <- _]. apply scalar_column_wf; [cbn; auto 10 | reflexivity].
  - unfold bind at 1.
    destruct (py_in "object" (declared_type d)) as [is_object |] eqn:Eobj; [| discriminate].
    destruct is_object.
    + apply Hrec. reflexivity.
    + unfold bind at 1.
      destruct (bigquery_type (declared_type d) (declared_format d)) as [t |] eqn:Et;
        [| discriminate].
      intros [= <- _]. apply scalar_column_wf; [| reflexivity].
      apply (bigquery_type_scalar _ _ _ Et).
      now apply (bigquery_type_not_object _ _ _ Et).
Qed.

(** X6. Every column built by the sink's constructor, at every nesting
    level, has the shape the warehouse accepts: a column of type [RECORD]
    has at least one nested column, any other column has one of the seven
    scalar types and no nested column, and every mode is [NULLABLE] or
    [REPEATED]. *)
Theorem translated_columns_well_formed
    (schema : pyval) (cols : list SchemaField) (flag : bool) :
  init_bigquery_schema schema = Ok (cols, flag) ->
  forallb column_wf cols = true.
Proof.
  unfold init_bigquery_schema.
  destruct (getitem schema "properties") as [props | e]; [| discriminate].
  destruct props as [| | | | | ps]; try discriminate.
  intros Hcols. destruct (columns_wf_all (PDict ps)) as (_ & _ & Hmapping).
  exact (Hmapping ps eq_refl false cols flag Hcols).
Qed.

Lemma translated_columns_well_formed_witness :
  forallb column_wf
    [mkSchemaField "id" "integer" "NULLABLE" [];
     mkSchemaField "lines" "RECORD" "REPEATED"
       [mkSchemaField "sku" "string" "NULLABLE" [];
        mkSchemaField "extra" "string" "NULLABLE" []];
     mkSchemaField "tags" "string" "NULLABLE" []] = true.
Proof.
  apply (translated_columns_well_formed
           (PDict [("properties",
                    PDict [("id", PDict [("type", type_list ["null"; "integer"])]);
                           ("lines",
                            PDict [("type", PStr "array");
                                   ("items",
                                    PDict [("type", PStr "object");
                                           ("properties",
                                            PDict [("sku", PDict [("type", PStr "string")]);
                                                   ("extra", PDict [("type", PStr "object")])])])]);
                           ("tags", PDict [("type", PStr "array")])])])
           _ true eq_refl).
Defined.

(** ** Provisioning twice *)

Lemma missing_fields_none field_eq live desired :
  (forall f, In f desired -> existsb (fun l => field_eq f l) live = true) ->
  missing_fields field_eq live desired = [].
Proof.
  unfold missing_fields. induction desired as [| f tl IH]; intros H; simpl;
    [reflexivity |].
  rewrite (H f) by now left. simpl. apply IH. intros g Hg. apply H. now right.
Qed.

Lemma missing_fields_after field_eq live desired :
  (forall f, In f desired -> field_eq f f = true) ->
  missing_fields field_eq (live ++ missing_fields field_eq live desired) desired = [].
Proof.
  intros Hrefl. apply missing_fields_none. intros f Hf.
  rewrite existsb_app.
  destruct (existsb (fun l => field_eq f l) live) eqn:E; [reflexivity |].
  simpl. apply existsb_exists. exists f. split; [| now apply Hrefl].
  unfold missing_fields. apply filter_In. split; [exact Hf | now rewrite E].
Qed.

(** X7. Provisioning is idempotent, whatever the state of the warehouse:
    when every desired column equals itself, a second [start_batch] with
    the same columns changes nothing and sends no update.  On a missing
    table, the first call creates it with exactly the desired columns and
    sends no update either. *)
Theorem start_batch_idempotent
    (field_eq : SchemaField -> SchemaField -> bool)
    (desired : list SchemaField) (w : Warehouse) :
  (forall f, In f desired -> field_eq f f = true) ->
  start_batch field_eq desired (start_batch field_eq desired w)
  = start_batch field_eq desired w
  /\ start_batch field_eq desired (mkWarehouse None (wh_updates w))
     = mkWarehouse (Some desired) (wh_updates w).
Proof.
  intros Hrefl.
  assert (Hself : missing_fields field_eq desired desired = []).
  { apply missing_fields_none. intros f Hf. apply existsb_exists.
    exists f. split; [exact Hf | now apply Hrefl]. }
  assert (Hnone : forall u, start_batch field_eq desired (mkWarehouse None u)
                            = mkWarehouse (Some desired) u).
  { intros u. unfold start_batch, create_table. cbn [wh_table wh_updates].
    rewrite fields_to_add_loop. cbn [app]. now rewrite Hself. }
  split; [| apply Hnone].
  destruct w as [[live |] updates].
  - rewrite start_batch_live.
    destruct (missing_fields field_eq live desired) as [| f added] eqn:E.
    + now rewrite start_batch_live, E.
    + rewrite start_batch_live. rewrite <- E.
      now rewrite (missing_fields_after field_eq live desired Hrefl).
  - rewrite Hnone, start_batch_live. now rewrite Hself.
Qed.

Lemma start_batch_idempotent_witness :
  let a := mkSchemaField "a" "string" "NULLABLE" [] in
  let c := mkSchemaField "c" "RECORD" "REPEATED" [mkSchemaField "x" "integer" "NULLABLE" []] in
  let live := mkWarehouse (Some [mkSchemaField "a" "STRING" "NULLABLE" []]) [] in
  start_batch SchemaField_eqb [a; c] (start_batch SchemaField_eqb [a; c] live)
  = start_batch SchemaField_eqb [a; c] live
  /\ start_batch SchemaField_eqb [a; c] (mkWarehouse None []) = mkWarehouse (Some [a; c]) [].
Proof.
  intros a c live.
  apply (start_batch_idempotent SchemaField_eqb [a; c] live).
  intros f [<- | [<- | []]]; reflexivity.
Defined.

(** ** The record coercer *)

Lemma _parse_json_with_props_eq items spec :
  _parse_json_with_props (PDict items) spec
  = (items' <- traverse (coerce_item _parse_json_with_props spec) items ;;
     Ok (PDict items'))%py.
Proof. reflexivity. Qed.

(** Case analysis on the next test of a run that ended well. *)
Ltac step_ok H :=
  match type of H with
  | rbind ?r _ = Ok _ =>
      let E := fresh "E" in
      destruct r eqn:E; cbn [rbind] in H; [| discriminate H]
  | (if ?b then _ else _) = Ok _ =>
      let E := fresh "E" in destruct b eqn:E
  | match ?v with PNone => _ | _ => _ end = Ok _ =>
      let E := fresh "E" in destruct v eqn:E
  end.

Lemma coerce_item_name parse spec name v name' v' :
  coerce_item parse spec (name, v) = Ok (name', v') -> name' = name.
Proof.
  unfold coerce_item. intros H.
  repeat step_ok H; now inversion H.
Qed.

Lemma coerce_item_scalar parse spec name v name' v' :
  coerce_item parse spec (name, v) = Ok (name', v') ->
  is_scalar v = true ->
  v' = v.
Proof.
  unfold coerce_item. intros H Hs.
  destruct v; try discriminate Hs; cbn [is_dict] in H;
    repeat step_ok H;
    try match goal with
        | E : _ && false = true |- _ => rewrite andb_false_r in E; discriminate E
        end;
    now inversion H.
Qed.

Lemma coerce_item_no_spec parse props name v name' v' :
  coerce_item parse (PDict props) (name, v) = Ok (name', v') ->
  dict_get name props = None ->
  v' = v.
Proof.
  unfold coerce_item, py_get, dict_get_default. intros H Hnone.
  rewrite Hnone in H. cbn in H. now inversion H.
Qed.

Lemma traverse_keys {B} (f : string * B -> result (string * B)) items : forall items',
  (forall kv kv', f kv = Ok kv' -> fst kv' = fst kv) ->
  traverse f items = Ok items' ->
  map fst items' = map fst items.
Proof.
  induction items as [| kv tl IH]; intros items' Hf; cbn [traverse].
  - now intros [= <-].
  - destruct (f kv) as [kv' |] eqn:E; [| discriminate]. cbn [rbind].
    destruct (traverse f tl) as [tl' |] eqn:Etl; [| discriminate]. cbn [rbind].
    intros [= <-]. cbn. f_equal; [now apply Hf | now apply IH].
Qed.

Lemma traverse_In {A B} (f : A -> result B) l : forall l' x,
  traverse f l = Ok l' -> In x l -> exists y, f x = Ok y /\ In y l'.
Proof.
  induction l as [| a tl IH]; intros l' x; cbn [traverse]; [intros _ [] |].
  destruct (f a) as [b |] eqn:E; [| discriminate]. cbn [rbind].
  destruct (traverse f tl) as [tl' |] eqn:Etl; [| discriminate]. cbn [rbind].
  intros [= <-] [<- | Hin].
  - exists b. split; [exact E | now left].
  - destruct (IH tl' x eq_refl Hin) as (y & Hy & Hin'). exists y. split; [exact Hy | now right].
Qed.

Lemma traverse_dict_get (f : string * pyval -> result (string * pyval)) items :
  forall items' name v,
  (forall kv kv', f kv = Ok kv' -> fst kv' = fst kv) ->
  traverse f items = Ok items' ->
  dict_get name items = Some v ->
  exists v', f (name, v) = Ok (name, v') /\ dict_get name items' = Some v'.
Proof.
  induction items as [| [k x] tl IH]; intros items' name v Hf; cbn [traverse dict_get];
    [intros _ [=] |].
  destruct (f (k, x)) as [[k' x'] |] eqn:E; [| discriminate]. cbn [rbind].
  destruct (traverse f tl) as [tl' |] eqn:Etl; [| discriminate]. cbn [rbind].
  intros [= <-]. pose proof (Hf _ _ E) as Hk. cbn in Hk. subst k'.
  cbn [dict_get]. destruct (String.eqb_spec k name) as [-> | Hne].
  - intros [= <-]. exists x'. split; [exact E | reflexivity].
  - now apply IH.
Qed.

Lemma coerce_item_fst parse spec kv kv' :
  coerce_item parse spec kv = Ok kv' -> fst kv' = fst kv.
Proof. destruct kv as [k v], kv' as [k' v']. apply coerce_item_name. Qed.

(** X8. When the coercer returns, the record has the same keys in the
    same order, and a field whose value is neither a mapping nor a list,
    or whose name the schema does not declare, still holds its value. *)
Theorem coercer_passes_through
    (items props : dict) (r : pyval) (name : string) (v : pyval) :
  _parse_json_with_props (PDict items) (PDict props) = Ok r ->
  dict_get name items = Some v ->
  is_scalar v = true \/ dict_get name props = None ->
  exists items',
    r = PDict items'
    /\ map fst items' = map fst items
    /\ dict_get name items' = Some v.
Proof.
  rewrite _parse_json_with_props_eq. intros H Hget Hwhy.
  destruct (traverse (coerce_item _parse_json_with_props (PDict props)) items)
    as [items' |] eqn:E; [| discriminate]. cbn [rbind] in H. injection H as <-.
  exists items'. split; [reflexivity |]. split.
  - apply (traverse_keys _ _ _ (coerce_item_fst _ _) E).
  - destruct (traverse_dict_get _ _ _ _ _ (coerce_item_fst _ _) E Hget)
      as (v' & Hitem & Hget').
    rewrite Hget'. f_equal. destruct Hwhy as [Hs | Hnone].
    + now apply (coerce_item_scalar _ _ _ _ _ _ Hitem).
    + now apply (coerce_item_no_spec _ _ _ _ _ _ Hitem).
Qed.

Lemma coercer_passes_through_witness :
  exists items',
    PDict [("id", PInt 7); ("meta", PStr json_a_1); ("note", PDict [])] = PDict items'
    /\ map fst items' = ["id"; "meta"; "note"]
    /\ dict_get "note" items' = Some (PDict []).
Proof.
  apply (coercer_passes_through
           [("id", PInt 7); ("meta", PDict [("a", PInt 1)]); ("note", PDict [])]
           [("id", PDict [("type", PStr "integer")]); ("meta", PDict [("type", PStr "object")])]
           _ "note" (PDict []));
    [reflexivity | reflexivity | now right].
Defined.

Lemma array_type_present (d : dict) :
  py_in "array" (declared_type d) = Ok true ->
  exists ty, dict_get "type" d = Some ty /\ py_in "array" ty = Ok true.
Proof.
  unfold declared_type, dict_get_default.
  destruct (dict_get "type" d) as [ty |]; [eauto | discriminate].
Qed.

Lemma py_in_ok_other (s s' : string) (v : pyval) (b : bool) :
  py_in s v = Ok b -> exists b', py_in s' v = Ok b'.
Proof. destruct v; cbn; try discriminate; eauto. Qed.

(** X9. At the top level the coercer follows the translation.  For a
    property that translation coerces to a nullable string column (an
    object type without properties, or an array type without items), the
    coercer replaces any mapping value, respectively any list value, of
    that field by its compact serialization. *)
Theorem coercer_mirrors_top_level
    (items props d : dict) (name : string) (v r : pyval) (flag : bool) :
  _parse_json_with_props (PDict items) (PDict props) = Ok r ->
  dict_get name props = Some (PDict d) ->
  dict_get name items = Some v ->
  (py_in "array" (declared_type d) = Ok false
   /\ py_in "object" (declared_type d) = Ok true
   /\ (dict_get "properties" d = None \/ dict_get "properties" d = Some (PDict []))
   /\ is_dict v = true)
  \/ (py_in "array" (declared_type d) = Ok true
      /\ dict_get "items" d = None
      /\ exists l, v = PList l) ->
  jsonschema_prop_to_bq_column name (PDict d) flag
  = Ok (mkSchemaField (safe_column_name name false) "string" "NULLABLE" [], true)
  /\ exists s items',
       orjson_dumps v = Ok s
       /\ r = PDict items'
       /\ dict_get name items' = Some (PStr s).
Proof.
  rewrite _parse_json_with_props_eq. intros H Hspec Hget Hcase.
  destruct (traverse (coerce_item _parse_json_with_props (PDict props)) items)
    as [items' |] eqn:E; [| discriminate]. cbn [rbind] in H. injection H as <-.
  destruct (traverse_dict_get _ _ _ _ _ (coerce_item_fst _ _) E Hget)
    as (v' & Hitem & Hget').
  unfold coerce_item, py_get, dict_get_default in Hitem. rewrite Hspec in Hitem.
  cbn [rbind] in Hitem.
  destruct Hcase as [(Harr & Hobj & Hprops & Hdict) | (Harr & Hitems & l & ->)].
  - split.
    + rewrite jsonschema_prop_to_bq_column_eq. cbv zeta.
      unfold bind at 1, lift. rewrite Harr. unfold bind at 1. rewrite Hobj.
      now apply translate_record_no_properties.
    + destruct (object_type_present d Hobj) as (ty & Hty & Hin).
      assert (Htruthy : truthy (PDict d) = true).
      { destruct d; [discriminate Hty | reflexivity]. }
      rewrite Htruthy in Hitem. cbn [getitem] in Hitem. rewrite Hty in Hitem.
      cbn [rbind] in Hitem. rewrite Hin, Hdict in Hitem. cbn [andb rbind] in Hitem.
      assert (Hfalsy : negb (truthy match dict_get "properties" d with
                                     | Some x => x
                                     | None => PNone
                                     end) = true).
      { destruct Hprops as [-> | ->]; reflexivity. }
      rewrite Hfalsy in Hitem.
      destruct (orjson_dumps v) as [s |]; [| discriminate Hitem].
      injection Hitem as <-. exists s, items'. auto.
  - split.
    + rewrite jsonschema_prop_to_bq_column_eq. cbv zeta.
      unfold bind at 1, lift. now rewrite Harr, Hitems.
    + destruct (array_type_present d Harr) as (ty & Hty & Hin).
      assert (Htruthy : truthy (PDict d) = true).
      { destruct d; [discriminate Hty | reflexivity]. }
      rewrite Htruthy in Hitem. cbn [getitem] in Hitem. rewrite Hty in Hitem.
      cbn [rbind] in Hitem.
      destruct (py_in_ok_other "array" "object" ty true Hin) as [ho Hobj].
      rewrite Hobj in Hitem. cbn [rbind is_dict] in Hitem.
      rewrite andb_false_r, Hin in Hitem. cbn [rbind] in Hitem.
      rewrite Hitems in Hitem. cbn [truthy rbind] in Hitem.
      destruct (orjson_dumps (PList l)) as [s |]; [| discriminate Hitem].
      injection Hitem as <-. exists s, items'. auto.
Qed.

Lemma coercer_mirrors_top_level_witness :
  jsonschema_prop_to_bq_column "tags" (PDict [("type", type_list ["null"; "array"])]) false
  = Ok (mkSchemaField "tags" "string" "NULLABLE" [], true)
  /\ exists s items',
       orjson_dumps (PList [PInt 1; PNone]) = Ok s
       /\ PDict [("id", PInt 7); ("tags", PStr "[1,null]")] = PDict items'
       /\ dict_get "tags" items' = Some (PStr s).
Proof.
  apply (coercer_mirrors_top_level
           [("id", PInt 7); ("tags", PList [PInt 1; PNone])]
           [("tags", PDict [("type", type_list ["null"; "array"])])]
           [("type", type_list ["null"; "array"])]
           "tags" (PList [PInt 1; PNone]) _ false);
    [reflexivity | reflexivity | reflexivity |].
  right. repeat split. now exists [PInt 1; PNone].
Defined.

(** ** A second pass of the coercer *)

Lemma traverse_stable {A} (f : A -> result A) l : forall l',
  traverse f l = Ok l' ->
  (forall x y, In x l -> f x = Ok y -> f y = Ok y) ->
  traverse f l' = Ok l'.
Proof.
  induction l as [| a tl IH]; intros l'; cbn [traverse].
  - now intros [= <-] _.
  - destruct (f a) as [b |] eqn:E; [| discriminate]. cbn [rbind].
    destruct (traverse f tl) as [tl' |] eqn:Etl; [| discriminate]. cbn [rbind].
    intros [= <-] Hst. cbn [traverse].
    rewrite (Hst a b (or_introl eq_refl) E). cbn [rbind].
    rewrite (IH tl' eq_refl); [reflexivity |].
    intros x y Hin. apply Hst. now right.
Qed.

Lemma parse_ok_is_dict v spec r :
  _parse_json_with_props v spec = Ok r -> is_dict r = true.
Proof.
  destruct v; try discriminate. rewrite _parse_json_with_props_eq.
  destruct (traverse _ d); [| discriminate]. now intros [= <-].
Qed.

Lemma coerce_item_stable spec name v name' v' :
  coercer_stable v ->
  coerce_item _parse_json_with_props spec (name, v) = Ok (name', v') ->
  coerce_item _parse_json_with_props spec (name', v') = Ok (name', v').
Proof.
  intros [Hdict Hlist] H.
  pose proof (coerce_item_name _ _ _ _ _ _ H) as ->.
  unfold coerce_item in H |- *.
  destruct (py_get spec name PNone) as [p |] eqn:Ep; [| discriminate H].
  cbn [rbind] in H |- *.
  destruct (truthy p) eqn:Et; [| now inversion H].
  destruct (getitem p "type") as [ty |] eqn:Ety; [| discriminate H].
  cbn [rbind] in H |- *.
  destruct (py_in "object" ty) as [ho |] eqn:Eobj; [| discriminate H].
  cbn [rbind] in H |- *.
  destruct (py_in_ok_other "object" "array" ty ho Eobj) as [ha Earr].
  rewrite Earr in H |- *. cbn [rbind] in H |- *.
  destruct (ho && is_dict v) eqn:Ebranch.
  - apply andb_prop in Ebranch as [-> Hv].
    destruct (py_get p "properties" PNone) as [props |] eqn:Eprops; [| discriminate H].
    cbn [rbind] in H |- *.
    destruct (negb (truthy props)) eqn:Efalsy.
    + destruct (orjson_dumps v) as [s |]; [| discriminate H].
      injection H as <-. reflexivity.
    + destruct (_parse_json_with_props v props) as [c |] eqn:Ec; [| discriminate H].
      injection H as <-. rewrite (parse_ok_is_dict _ _ _ Ec). cbn [andb].
      rewrite (Hdict _ _ Ec). reflexivity.
  - destruct v as [| b | z | s | l | d];
      try (injection H as <-; rewrite Ebranch; reflexivity).
    destruct ha; [| injection H as <-; rewrite Ebranch; reflexivity].
    destruct (py_get p "items" PNone) as [items_schema |] eqn:Eitems; [| discriminate H].
    cbn [rbind] in H |- *.
    destruct (truthy items_schema) eqn:Eti.
    + destruct (traverse (fun item => _parse_json_with_props item items_schema) l)
        as [l' |] eqn:El; [| discriminate H].
      injection H as <-. cbn [is_dict]. rewrite andb_false_r.
      rewrite (Hlist l eq_refl _ _ El). reflexivity.
    + destruct (orjson_dumps (PList l)) as [s |]; [| discriminate H].
      injection H as <-. cbn [is_dict]. now rewrite andb_false_r.
Qed.

Lemma coercer_stable_all : forall v, coercer_stable v.
Proof.
  induction v as [| b | z | s | l IH | d IH] using pyval_nested_ind;
    try (split; [intros ? ? H; discriminate H | intros ? H; discriminate H]).
  - split; [intros ? ? H; discriminate H |].
    intros l0 [= <-] spec l' Hl. apply (traverse_stable _ _ _ Hl).
    rewrite Forall_forall in IH. intros x y Hin. now apply (IH x Hin).
  - split; [| intros ? [=]].
    intros spec r. rewrite _parse_json_with_props_eq.
    destruct (traverse (coerce_item _parse_json_with_props spec) d) as [d' |] eqn:E;
      [| discriminate].
    intros [= <-]. rewrite _parse_json_with_props_eq.
    rewrite (traverse_stable _ _ _ E); [reflexivity |].
    rewrite Forall_forall in IH. intros [k x] [k' x'] Hin.
    apply coerce_item_stable. exact (IH _ Hin).
Qed.

(** X10. The coercer is idempotent: a record it has rewritten is left as
    it is by a second pass against the same schema, without raising. *)
Theorem coercer_idempotent (record spec r : pyval) :
  _parse_json_with_props record spec = Ok r ->
  _parse_json_with_props r spec = Ok r.
Proof. destruct (coercer_stable_all record) as [H _]. apply H. Qed.

Lemma coercer_idempotent_witness :
  let spec := PDict [("meta", PDict [("type", PStr "object")]);
                     ("tags", PDict [("type", PStr "array")])] in
  _parse_json_with_props
    (PDict [("meta", PStr json_a_1); ("tags", PStr "[1,2]")]) spec
  = Ok (PDict [("meta", PStr json_a_1); ("tags", PStr "[1,2]")]).
Proof.
  intros spec.
  apply (coercer_idempotent
           (PDict [("meta", PDict [("a", PInt 1)]); ("tags", PList [PInt 1; PInt 2])])
           spec).
  reflexivity.
Defined.

(** ** Record metadata *)

Lemma dict_get_set_same (k : string) (v : pyval) (d : dict) :
  dict_get k (dict_set k v d) = Some v.
Proof.
  induction d as [| [k' v'] tl IH]; cbn [dict_set dict_get].
  - now rewrite String.eqb_refl.
  - destruct (String.eqb k' k) eqn:E; cbn [dict_get]; rewrite E; [reflexivity | exact IH].
Qed.

Lemma dict_get_set_other (k k' : string) (v : pyval) (d : dict) :
  k' <> k -> dict_get k' (dict_set k v d) = dict_get k' d.
Proof.
  intros Hne. induction d as [| [k0 v0] tl IH]; cbn [dict_set dict_get].
  - destruct (String.eqb_spec k k'); [congruence | reflexivity].
  - destruct (String.eqb_spec k0 k) as [-> | Hk]; cbn [dict_get].
    + destruct (String.eqb_spec k k'); [congruence | reflexivity].
    + destruct (String.eqb k0 k'); [reflexivity | exact IH].
Qed.

Lemma dict_get_None_keys (k : string) (d : dict) :
  dict_get k d = None <-> ~ In k (map fst d).
Proof.
  induction d as [| [k' v] tl IH]; cbn [dict_get map fst In]; [tauto |].
  destruct (String.eqb_spec k' k) as [-> | Hne].
  - split; [discriminate | intros H; exfalso; apply H; now left].
  - rewrite IH. tauto.
Qed.

(** What the coercer does to the top level of a record, for any schema. *)
Lemma coercer_top_level items spec r :
  _parse_json_with_props (PDict items) spec = Ok r ->
  exists items',
    r = PDict items'
    /\ (forall k, dict_get k items = None -> dict_get k items' = None)
    /\ (forall k v, dict_get k items = Some v -> is_scalar v = true ->
                    dict_get k items' = Some v).
Proof.
  rewrite _parse_json_with_props_eq. intros H.
  destruct (traverse (coerce_item _parse_json_with_props spec) items)
    as [items' |] eqn:E; [| discriminate]. cbn [rbind] in H. injection H as <-.
  exists items'. split; [reflexivity |]. split.
  - intros k. rewrite !dict_get_None_keys.
    now rewrite (traverse_keys _ _ _ (coerce_item_fst _ _) E).
  - intros k v Hget Hs.
    destruct (traverse_dict_get _ _ _ _ _ (coerce_item_fst _ _) E Hget)
      as (v' & Hitem & ->).
    f_equal. now apply (coerce_item_scalar _ _ _ _ _ _ Hitem).
Qed.

Section PreprocessFacts.
Variable datetime : Type.
Variable isoformat : datetime -> string.

Lemma preprocess_record_stamped self clock record context :
  preprocess_record isoformat self clock record context
  = if _contains_coerced_field self then
      (_prop_spec <- getitem (schema self) "properties" ;;
       _parse_json_with_props (PDict (stamped isoformat self clock record context)) _prop_spec)%py
    else Ok (PDict (stamped isoformat self clock record context)).
Proof. reflexivity. Qed.

(** The result is a mapping that agrees with the stamped record on the
    keys it lacks and on its scalar values. *)
Lemma preprocess_record_result self clock record context r :
  preprocess_record isoformat self clock record context = Ok r ->
  exists r',
    r = PDict r'
    /\ (forall k, dict_get k (stamped isoformat self clock record context) = None ->
                  dict_get k r' = None)
    /\ (forall k v, dict_get k (stamped isoformat self clock record context) = Some v ->
                    is_scalar v = true \/ _contains_coerced_field self = false ->
                    dict_get k r' = Some v).
Proof.
  rewrite preprocess_record_stamped.
  destruct (_contains_coerced_field self) eqn:Ef.
  - destruct (getitem (schema self) "properties") as [spec |]; [| discriminate].
    cbn [rbind]. intros H.
    destruct (coercer_top_level _ _ _ H) as (r' & -> & Hnone & Hsome).
    exists r'. split; [reflexivity |]. split; [exact Hnone |].
    intros k v Hget [Hs | Hf]; [now apply Hsome | discriminate Hf].
  - intros [= <-]. eexists. split; [reflexivity |]. split; auto.
Qed.

(** X11. Whenever [preprocess_record] returns, whatever the options and
    whether or not the coercer runs, the record it returns carries
    [_sdc_batched_at], set to the ISO form of the batch start time when
    the context has one and of the clock otherwise; a value the record
    came with under that name is overwritten. *)
Theorem batched_at_always_stamped
    (self : Sink) (clock : Clock datetime) (record : dict)
    (context : BatchContext datetime) (r : pyval) :
  preprocess_record isoformat self clock record context = Ok r ->
  exists r',
    r = PDict r'
    /\ dict_get "_sdc_batched_at" r'
       = Some (PStr (isoformat
                       match batch_start_time datetime context with
                       | Some t => t
                       | None => now_batched datetime clock
                       end)).
Proof.
  intros H. destruct (preprocess_record_result _ _ _ _ _ H) as (r' & -> & _ & Hsome).
  exists r'. split; [reflexivity |].
  apply Hsome; [apply dict_get_set_same | now left].
Qed.

(** X12. Every field the record arrives with, except [_sdc_batched_at],
    is returned with its value, provided the value is neither a mapping
    nor a list or the sink has no coerced field; in particular an incoming
    [_sdc_extracted_at] or [_sdc_received_at] is never overwritten. *)
Theorem incoming_fields_kept
    (self : Sink) (clock : Clock datetime) (record : dict)
    (context : BatchContext datetime) (r : pyval) (k : string) (v : pyval) :
  preprocess_record isoformat self clock record context = Ok r ->
  k <> "_sdc_batched_at" ->
  dict_get k record = Some v ->
  is_scalar v = true \/ _contains_coerced_field self = false ->
  exists r', r = PDict r' /\ dict_get k r' = Some v.
Proof.
  intros H Hk Hget Hwhy.
  destruct (preprocess_record_result _ _ _ _ _ H) as (r' & -> & _ & Hsome).
  exists r'. split; [reflexivity |]. apply Hsome; [| exact Hwhy].
  unfold stamped. rewrite dict_get_set_other by exact Hk.
  destruct (add_record_metadata self); [| exact Hget].
  assert (Hfirst : dict_get k
            (if negb (dict_mem "_sdc_extracted_at" record)
             then dict_set "_sdc_extracted_at"
                    (PStr (isoformat (now_extracted datetime clock))) record
             else record) = Some v).
  { unfold dict_mem.
    destruct (dict_get "_sdc_extracted_at" record) eqn:E; cbn [negb]; [exact Hget |].
    rewrite dict_get_set_other; [exact Hget | congruence]. }
  unfold dict_mem at 1.
  match goal with
  | |- context [dict_get "_sdc_received_at" ?d] =>
      destruct (dict_get "_sdc_received_at" d) eqn:E; cbn [negb]; [exact Hfirst |]
  end.
  rewrite dict_get_set_other; [exact Hfirst | congruence].
Qed.

(** X13. For a record that arrives without [_sdc_extracted_at] and
    without [_sdc_received_at]: with [add_record_metadata] enabled both
    are set from the clock, each from its own reading; with the option
    disabled neither is added. *)
Theorem extracted_and_received_follow_option
    (self : Sink) (clock : Clock datetime) (record : dict)
    (context : BatchContext datetime) (r : pyval) :
  preprocess_record isoformat self clock record context = Ok r ->
  dict_get "_sdc_extracted_at" record = None ->
  dict_get "_sdc_received_at" record = None ->
  exists r',
    r = PDict r'
    /\ dict_get "_sdc_extracted_at" r'
       = (if add_record_metadata self
          then Some (PStr (isoformat (now_extracted datetime clock)))
          else None)
    /\ dict_get "_sdc_received_at" r'
       = (if add_record_metadata self
          then Some (PStr (isoformat (now_received datetime clock)))
          else None).
Proof.
  intros H He Hr.
  destruct (preprocess_record_result _ _ _ _ _ H) as (r' & -> & Hnone & Hsome).
  exists r'. split; [reflexivity |].
  unfold stamped in Hnone, Hsome. unfold dict_mem in Hnone, Hsome.
  rewrite He in Hnone, Hsome. cbn [negb] in Hnone, Hsome.
  rewrite dict_get_set_other in Hnone, Hsome by discriminate.
  rewrite Hr in Hnone, Hsome. cbn [negb] in Hnone, Hsome.
  destruct (add_record_metadata self); split.
  - apply Hsome; [| now left].
    rewrite !dict_get_set_other by discriminate. apply dict_get_set_same.
  - apply Hsome; [| now left].
    rewrite dict_get_set_other by discriminate. apply dict_get_set_same.
  - apply Hnone. now rewrite dict_get_set_other by discriminate.
  - apply Hnone. now rewrite dict_get_set_other by discriminate.
Qed.
End PreprocessFacts.

Lemma batched_at_always_stamped_witness :
  exists r',
    PDict [("id", PInt 1); ("_sdc_batched_at", PStr "2024-05-01T10:00:00");
           ("meta", PStr json_a_1)] = PDict r'
    /\ dict_get "_sdc_batched_at" r' = Some (PStr "2024-05-01T10:00:00").
Proof.
  apply (batched_at_always_stamped string (fun t => t)
           (mkSink false (PDict [("properties", PDict [("meta", PDict [("type", PStr "object")])])])
              true)
           (mkClock "t1" "t2" "t3")
           [("id", PInt 1); ("_sdc_batched_at", PStr "stale"); ("meta", PDict [("a", PInt 1)])]
           (mkContext (Some "2024-05-01T10:00:00"))).
  reflexivity.
Defined.

Lemma incoming_fields_kept_witness :
  exists r',
    PDict [("_sdc_extracted_at", PStr "upstream"); ("id", PInt 1);
           ("_sdc_received_at", PStr "t2"); ("_sdc_batched_at", PStr "t3")] = PDict r'
    /\ dict_get "_sdc_extracted_at" r' = Some (PStr "upstream").
Proof.
  apply (incoming_fields_kept string (fun t => t)
           (mkSink true (PDict [("properties", PDict [])]) false)
           (mkClock "t1" "t2" "t3")
           [("_sdc_extracted_at", PStr "upstream"); ("id", PInt 1)]
           (mkContext None) _ "_sdc_extracted_at" (PStr "upstream"));
    [reflexivity | discriminate | reflexivity | now left].
Defined.

Lemma extracted_and_received_follow_option_witness :
  exists r',
    PDict [("id", PInt 1); ("_sdc_extracted_at", PStr "t1");
           ("_sdc_received_at", PStr "t2"); ("_sdc_batched_at", PStr "t3")] = PDict r'
    /\ dict_get "_sdc_extracted_at" r' = Some (PStr "t1")
    /\ dict_get "_sdc_received_at" r' = Some (PStr "t2").
Proof.
  apply (extracted_and_received_follow_option string (fun t => t)
           (mkSink true (PDict [("properties", PDict [])]) false)
           (mkClock "t1" "t2" "t3")
           [("id", PInt 1)]
           (mkContext None));
    reflexivity.
Defined.

(** ** Streaming delivery, from arrival to insert *)

Lemma process_records_buffer records : forall s,
  process_records records s
  = mkStreamingSink (records_to_drain s ++ records) (current_size s) (draining s) (trace s).
Proof.
  unfold process_records.
  induction records as [| r tl IH]; intros s; cbn [fold_left].
  - rewrite app_nil_r. now destruct s.
  - rewrite IH. unfold process_record. cbn. now rewrite <- app_assoc.
Qed.

(** X14. Records handed to the streaming sink while its buffer is empty
    are inserted by the next [process_batch] in one call, all of them and
    in the order they arrived; the answer of the insert is logged, as new
    rows when it is empty and as errors otherwise, and the buffer is empty
    again afterwards. *)
Theorem streaming_delivers_in_order
    (insert_rows_json : list pyval -> list pyval) (s : StreamingSink)
    (records : list pyval) :
  records_to_drain s = [] ->
  current_size s <> 0 ->
  let s' := process_batch insert_rows_json (process_records records s) in
  trace s' = trace s ++ [InsertRowsJson records;
                         match insert_rows_json records with
                         | [] => LogNewRows
                         | errors => LogInsertErrors errors
                         end]
  /\ records_to_drain s' = []
  /\ current_size s' = 0
  /\ draining s' = false.
Proof.
  intros Hempty Hsize s'. subst s'.
  rewrite process_records_buffer, Hempty. cbn [app].
  unfold process_batch. cbn [current_size].
  destruct (Nat.eqb_spec (current_size s) 0) as [E | _]; [contradiction |].
  cbn [start_drain records_to_drain].
  destruct (insert_rows_json records); cbn; rewrite <- app_assoc; repeat split.
Qed.

Lemma streaming_delivers_in_order_witness :
  let rows := [PDict [("id", PInt 1)]; PDict [("id", PInt 2)]] in
  let s' := process_batch (fun _ => [])
              (process_records rows (mkStreamingSink [] 2 false [])) in
  trace s' = [InsertRowsJson rows; LogNewRows]
  /\ records_to_drain s' = []
  /\ current_size s' = 0
  /\ draining s' = false.
Proof.
  intros rows.
  apply (streaming_delivers_in_order (fun _ => []) (mkStreamingSink [] 2 false []) rows);
    [reflexivity | discriminate].
Defined.

(** ** Load delivery, from arrival to the load job *)

Lemma io_write_at_end (b : bytes) (io : BytesIO) :
  tell io = length (getvalue io) ->
  io_write b io = mkBytesIO (getvalue io ++ b) (length (getvalue io ++ b)).
Proof.
  destruct io as [buf pos]. cbn [tell getvalue]. intros ->.
  unfold io_write. cbn [tell getvalue]. destruct b as [| c b].
  - now rewrite app_nil_r.
  - rewrite Nat.sub_diag. cbn [repeat]. rewrite app_nil_r.
    rewrite firstn_all, skipn_all2 by (cbn; lia).
    now rewrite app_nil_r, length_app.
Qed.

(** The buffer a context stands for: its own, or a new one. *)
Lemma load_process_records_appends records : forall lines context,
  traverse orjson_dumps_line records = Ok lines ->
  match ctx_records context with
  | Some data => tell data = length (getvalue data)
  | None => True
  end ->
  load_process_records records context
  = Ok match records with
       | [] => context
       | _ =>
           let old := match ctx_records context with
                      | Some data => getvalue data
                      | None => []
                      end in
           mkLoadContext
             (Some (mkBytesIO (old ++ concat lines) (length (old ++ concat lines))))
             (ctx_batch_id context)
       end.
Proof.
  induction records as [| r tl IH]; intros lines context; cbn [traverse load_process_records];
    [reflexivity |].
  destruct (orjson_dumps_line r) as [line |] eqn:El; [| discriminate]. cbn [rbind].
  destruct (traverse orjson_dumps_line tl) as [lines' |] eqn:Etl; [| discriminate].
  cbn [rbind]. intros [= <-] Hinv.
  unfold load_process_record. rewrite El. cbn [rbind].
  set (data := match ctx_records context with Some d => d | None => BytesIO_new end).
  assert (Hdata : tell data = length (getvalue data)).
  { subst data. destruct (ctx_records context); [exact Hinv | reflexivity]. }
  assert (Hold : getvalue data
                 = match ctx_records context with Some d => getvalue d | None => [] end).
  { subst data. now destruct (ctx_records context). }
  rewrite (io_write_at_end line data Hdata).
  rewrite (IH lines' _ eq_refl) by reflexivity.
  cbn [ctx_records ctx_batch_id getvalue concat]. rewrite <- Hold.
  destruct tl as [| r' tl'].
  - cbn [traverse] in Etl. injection Etl as <-. cbn [concat]. now rewrite app_nil_r.
  - cbv zeta. now rewrite <- !app_assoc.
Qed.

(** X15. Direct load.  Records handed to the sink in a context without a
    buffer are written one line each, in the order they arrived, and the
    next [process_batch] submits one load job for the stream's table whose
    data is exactly those lines, and queues one future for it.  The
    buffer is rewound, not emptied: it still holds the lines afterwards. *)
Theorem direct_load_delivers_lines
    (s : LoadSink) (records : list pyval) (lines : list bytes)
    (batch_id : option string) :
  traverse orjson_dumps_line records = Ok lines ->
  records <> [] ->
  ls_current_size s <> 0 ->
  let table := table_name (ls_config s) (ls_stream_name s) in
  (context <- load_process_records records (mkLoadContext None batch_id) ;;
   batch_process_batch s context)%py
  = Ok (mkLoadSink (ls_config s) (ls_stream_name s) 0 false
          (job_queue s ++ [FileLoadJob (concat lines) table])
          (ls_trace s ++ [LoadTableFromFile (concat lines) table]),
        mkLoadContext (Some (mkBytesIO (concat lines) 0)) batch_id).
Proof.
  intros Hlines Hne Hsize table. subst table.
  rewrite (load_process_records_appends records lines _ Hlines) by exact I.
  destruct records as [| r tl]; [contradiction |].
  cbn [rbind ctx_records ctx_batch_id app]. unfold batch_process_batch.
  destruct (Nat.eqb_spec (ls_current_size s) 0) as [E | _]; [contradiction |].
  reflexivity.
Qed.

Lemma direct_load_delivers_lines_witness :
  let s := mkLoadSink (mkConfig "proj" "ds" "bkt" None None) "orders" 2 false [] [] in
  let payload := list_ascii_of_string
                   (json_a_1 ++ String newline ("[true,null]" ++ String newline EmptyString)) in
  (context <- load_process_records
                [PDict [("a", PInt 1)]; PList [PBool true; PNone]]
                (mkLoadContext None (Some "b1")) ;;
   batch_process_batch s context)%py
  = Ok (mkLoadSink (mkConfig "proj" "ds" "bkt" None None) "orders" 0 false
          [FileLoadJob payload "proj.ds.orders"]
          [LoadTableFromFile payload "proj.ds.orders"],
        mkLoadContext (Some (mkBytesIO payload 0)) (Some "b1")).
Proof.
  intros s payload.
  apply (direct_load_delivers_lines s
           [PDict [("a", PInt 1)]; PList [PBool true; PNone]]
           [list_ascii_of_string (json_a_1 ++ String newline EmptyString);
            list_ascii_of_string ("[true,null]" ++ String newline EmptyString)]
           (Some "b1"));
    [reflexivity | discriminate | discriminate].
Defined.

Lemma str_append_assoc (a b c : string) :
  ((a ++ b) ++ c = a ++ b ++ c)%string.
Proof. induction a as [| x a IH]; cbn; [reflexivity | now rewrite IH]. Qed.

(** X16. Staged load.  Under the same conditions, with a batch id in the
    context, [process_batch] uploads exactly the lines to the object
    [gs://bucket/prefix/dataset/stream/batch_id.jsonl] (the prefix being
    [target_bigquery] unless overridden), then submits one load job that
    reads that same object into the stream's table, and queues one future
    for it. *)
Theorem staged_load_uploads_then_loads
    (s : LoadSink) (records : list pyval) (lines : list bytes) (batch_id : string) :
  traverse orjson_dumps_line records = Ok lines ->
  records <> [] ->
  ls_current_size s <> 0 ->
  let config := ls_config s in
  let table := table_name config (ls_stream_name s) in
  let uri :=
    ("gs://" ++ cfg_bucket config ++ "/"
     ++ match cfg_prefix_override config with
        | Some prefix => prefix
        | None => "target_bigquery"
        end
     ++ "/" ++ cfg_dataset config ++ "/" ++ ls_stream_name s
     ++ "/" ++ batch_id ++ ".jsonl")%string in
  (context <- load_process_records records (mkLoadContext None (Some batch_id)) ;;
   gcs_process_batch s context)%py
  = Ok (mkLoadSink config (ls_stream_name s) 0 false
          (job_queue s ++ [UriLoadJob uri table])
          (ls_trace s ++ [UploadObject uri (concat lines); LoadTableFromUri uri table]),
        mkLoadContext (Some (mkBytesIO (concat lines) 0)) (Some batch_id)).
Proof.
  intros Hlines Hne Hsize config table uri. subst config table uri.
  rewrite (load_process_records_appends records lines _ Hlines) by exact I.
  destruct records as [| r tl]; [contradiction |].
  cbn [rbind ctx_records ctx_batch_id app]. unfold gcs_process_batch.
  destruct (Nat.eqb_spec (ls_current_size s) 0) as [E | _]; [contradiction |].
  cbn [ctx_records ctx_batch_id].
  unfold base_blob_path, ls_mark_drained, ls_submit, ls_emit, ls_start_drain, io_seek0.
  cbn [ls_config ls_stream_name ls_trace job_queue getvalue ls_current_size ls_draining].
  rewrite <- !app_assoc. cbn [app].
  rewrite !str_append_assoc. reflexivity.
Qed.

Lemma staged_load_uploads_then_loads_witness :
  let s := mkLoadSink (mkConfig "proj" "ds" "bkt" None None) "orders" 1 false [] [] in
  let payload := list_ascii_of_string (json_a_1 ++ String newline EmptyString) in
  let uri := "gs://bkt/target_bigquery/ds/orders/b1.jsonl" in
  (context <- load_process_records [PDict [("a", PInt 1)]]
                (mkLoadContext None (Some "b1")) ;;
   gcs_process_batch s context)%py
  = Ok (mkLoadSink (mkConfig "proj" "ds" "bkt" None None) "orders" 0 false
          [UriLoadJob uri "proj.ds.orders"]
          [UploadObject uri payload; LoadTableFromUri uri "proj.ds.orders"],
        mkLoadContext (Some (mkBytesIO payload 0)) (Some "b1")).
Proof.
  intros s payload uri.
  apply (staged_load_uploads_then_loads s [PDict [("a", PInt 1)]]
           [list_ascii_of_string (json_a_1 ++ String newline EmptyString)] "b1");
    [reflexivity | discriminate | discriminate].
Defined.

(** ** Types written as one name, and properties without a type *)

(** X17. A declared type written as a single JSON Schema type name (a
    string, tested by substring) is mapped like the list holding that one
    name, for every format. *)
Theorem bigquery_type_single_name (t : string) (format : option string) :
  In t json_type_names ->
  bigquery_type (PStr t) (py_format format) = Ok (TypeMapper_map [t] format).
Proof.
  intros Hin. unfold bigquery_type, TypeMapper_map. rewrite !py_eq_str_format.
  destruct (format_is format "date-time"); [reflexivity |].
  destruct (format_is format "date"); [reflexivity |].
  destruct (format_is format "time"); [reflexivity |].
  cbn in Hin. decompose [or] Hin; subst; try contradiction; reflexivity.
Qed.

Lemma bigquery_type_single_name_witness :
  bigquery_type (PStr "integer") (py_format None) = Ok (TypeMapper_map ["integer"] None).
Proof. apply bigquery_type_single_name. cbn. auto. Defined.

(** X18. A property without a declared type is translated as a string:
    a nullable column of type timestamp, date or time when its format
    says so and of type string otherwise; it never raises and leaves the
    coercion flag as it was. *)
Theorem untyped_property_is_string (name : string) (d : dict) (flag : bool) :
  dict_get "type" d = None ->
  jsonschema_prop_to_bq_column name (PDict d) flag
  = Ok (mkSchemaField (safe_column_name name false)
          (if py_eq_str (declared_format d) "date-time" then "timestamp"
           else if py_eq_str (declared_format d) "date" then "date"
           else if py_eq_str (declared_format d) "time" then "time"
           else "string")
          "NULLABLE" [], flag).
Proof.
  intros Hty. rewrite jsonschema_prop_to_bq_column_eq. cbv zeta.
  unfold declared_type, dict_get_default. rewrite Hty.
  unfold bind, lift, bigquery_type. cbn [py_in is_substring String.prefix].
  destruct (py_eq_str (declared_format d) "date-time"); [reflexivity |].
  destruct (py_eq_str (declared_format d) "date"); [reflexivity |].
  destruct (py_eq_str (declared_format d) "time"); reflexivity.
Qed.

Lemma untyped_property_is_string_witness :
  jsonschema_prop_to_bq_column "Created At" (PDict [("format", PStr "date-time")]) false
  = Ok (mkSchemaField "created_at" "timestamp" "NULLABLE" [], false).
Proof.
  apply (untyped_property_is_string "Created At" [("format", PStr "date-time")] false).
  reflexivity.
Defined.

(** ** Where the coercer cannot return *)

Lemma coercer_item_must_succeed items spec r name v :
  _parse_json_with_props (PDict items) spec = Ok r ->
  dict_get name items = Some v ->
  exists v', coerce_item _parse_json_with_props spec (name, v) = Ok (name, v').
Proof.
  rewrite _parse_json_with_props_eq. intros H Hget.
  destruct (traverse (coerce_item _parse_json_with_props spec) items)
    as [items' |] eqn:E; [| discriminate].
  destruct (traverse_dict_get _ _ _ _ _ (coerce_item_fst _ _) E Hget) as (v' & Hitem & _).
  now exists v'.
Qed.

(** X19. The coercer reads the type of a schema entry without a default:
    when a field of the record is declared by a non-empty entry that has
    no [type] (an entry translation accepts as a string), the coercer
    raises instead of returning. *)
Theorem coercer_raises_on_untyped_entry
    (items props d : dict) (name : string) (v : pyval) :
  dict_get name props = Some (PDict d) ->
  d <> [] ->
  dict_get "type" d = None ->
  dict_get name items = Some v ->
  exists e, _parse_json_with_props (PDict items) (PDict props) = Raise e.
Proof.
  intros Hspec Hne Hty Hget.
  destruct (_parse_json_with_props (PDict items) (PDict props)) as [r | e] eqn:E;
    [| now exists e].
  destruct (coercer_item_must_succeed _ _ _ _ _ E Hget) as (v' & Hitem).
  unfold coerce_item, py_get, dict_get_default in Hitem. rewrite Hspec in Hitem.
  cbn [rbind] in Hitem.
  assert (Htruthy : truthy (PDict d) = true) by (destruct d; [contradiction | reflexivity]).
  rewrite Htruthy in Hitem. cbn [getitem] in Hitem. rewrite Hty in Hitem.
  discriminate Hitem.
Qed.

Lemma coercer_raises_on_untyped_entry_witness :
  exists e,
    _parse_json_with_props
      (PDict [("created", PStr "2024-05-01T10:00:00")])
      (PDict [("created", PDict [("format", PStr "date-time")])])
    = Raise e.
Proof.
  apply (coercer_raises_on_untyped_entry
           [("created", PStr "2024-05-01T10:00:00")]
           [("created", PDict [("format", PStr "date-time")])]
           [("format", PStr "date-time")] "created" (PStr "2024-05-01T10:00:00"));
    [reflexivity | discriminate | reflexivity | reflexivity].
Defined.

Lemma traverse_raises_on {A B} (f : A -> result B) (l : list A) (x : A) (e : exn) :
  In x l -> f x = Raise e -> exists e', traverse f l = Raise e'.
Proof.
  intros Hin Hx. destruct (traverse f l) as [l' |] eqn:E; [| eauto].
  destruct (traverse_In f l l' x E Hin) as (y & Hy & _). congruence.
Qed.

(** X20. For a field declared as an array with an items sub-schema, the
    coercer treats every element of a list value as a mapping: when the
    list holds an element that is not a mapping (an array of strings or
    numbers, say), the coercer raises instead of returning. *)
Theorem coercer_raises_on_scalar_array
    (items props d : dict) (name : string) (ty items_schema : pyval)
    (l : list pyval) (x : pyval) :
  dict_get name props = Some (PDict d) ->
  dict_get "type" d = Some ty ->
  py_in "array" ty = Ok true ->
  dict_get "items" d = Some items_schema ->
  truthy items_schema = true ->
  dict_get name items = Some (PList l) ->
  In x l ->
  is_dict x = false ->
  exists e, _parse_json_with_props (PDict items) (PDict props) = Raise e.
Proof.
  intros Hspec Hty Harr Hitems Htruthy Hget Hin Hx.
  destruct (_parse_json_with_props (PDict items) (PDict props)) as [r | e] eqn:E;
    [| now exists e].
  destruct (coercer_item_must_succeed _ _ _ _ _ E Hget) as (v' & Hitem).
  unfold coerce_item, py_get, dict_get_default in Hitem. rewrite Hspec in Hitem.
  cbn [rbind] in Hitem.
  assert (Hd : truthy (PDict d) = true) by (destruct d; [discriminate Hty | reflexivity]).
  rewrite Hd in Hitem. cbn [getitem] in Hitem. rewrite Hty in Hitem.
  cbn [rbind] in Hitem.
  destruct (py_in_ok_other "array" "object" ty true Harr) as [ho Hobj].
  rewrite Hobj in Hitem. cbn [rbind is_dict] in Hitem.
  rewrite andb_false_r, Harr in Hitem. cbn [rbind] in Hitem.
  rewrite Hitems in Hitem. cbn [rbind] in Hitem. rewrite Htruthy in Hitem.
  destruct (traverse_raises_on
              (fun item => _parse_json_with_props item items_schema) l x AttributeError Hin)
    as [e' He'].
  { destruct x; try reflexivity. discriminate Hx. }
  rewrite He' in Hitem. discriminate Hitem.
Qed.

Lemma coercer_raises_on_scalar_array_witness :
  exists e,
    _parse_json_with_props
      (PDict [("tags", PList [PStr "red"; PStr "blue"])])
      (PDict [("tags", PDict [("type", PStr "array");
                              ("items", PDict [("type", PStr "string")])])])
    = Raise e.
Proof.
  apply (coercer_raises_on_scalar_array
           [("tags", PList [PStr "red"; PStr "blue"])]
           [("tags", PDict [("type", PStr "array"); ("items", PDict [("type", PStr "string")])])]
           [("type", PStr "array"); ("items", PDict [("type", PStr "string")])]
           "tags" (PStr "array") (PDict [("type", PStr "string")])
           [PStr "red"; PStr "blue"] (PStr "red"));
    try reflexivity.
  now left.
Defined.
